(** * custom-amazon-bedrock-agent-action: the two entry points, embedded

    [src/index.js] (the repository-analysis entry point run on
    [workflow_dispatch] and [schedule] events) and the second, smaller entry
    point that forwards the action prompt to the agent as it is.

    JavaScript strings are sequences of UTF-16 code units; the host
    (environment, action inputs, the GitHub client, the file system, the
    clock, the Bedrock agent) is a record of values and oracles; logging and
    the agent call are events of a trace. *)

From Stdlib Require Import String Ascii.
From Stdlib Require Import List NArith ZArith Lia Bool Permutation.
From Stdlib Require DecimalPos.
Import ListNotations.

Set Implicit Arguments.

(* ===================================================================== *)
(** ** JavaScript strings *)
(* ===================================================================== *)

Module JS.

(** A string is its sequence of UTF-16 code units. *)
Definition jsstring := list N.

(** An ASCII literal of the source. *)
Definition js (s : string) : jsstring :=
  map N_of_ascii (list_ascii_of_string s).

(** The double quote, which the messages of Node quote names with. *)
Definition dquote : jsstring := [34%N].

(** [a === b] on strings. *)
Fixpoint eqb (a b : jsstring) : bool :=
  match a, b with
  | [], [] => true
  | x :: a', y :: b' => N.eqb x y && eqb a' b'
  | _, _ => false
  end.

(** [Boolean(s)], the truthiness of a string: the empty string is falsy. *)
Definition Boolean (s : jsstring) : bool :=
  match s with [] => false | _ :: _ => true end.

(** WhiteSpace and LineTerminator code points of ECMAScript, which
    [String.prototype.trim] strips. *)
Definition isWhiteSpace (c : N) : bool :=
  ((9 <=? c) && (c <=? 13) || (c =? 32) || (c =? 160) || (c =? 5760)
   || (8192 <=? c) && (c <=? 8202) || (c =? 8232) || (c =? 8233)
   || (c =? 8239) || (c =? 8287) || (c =? 12288) || (c =? 65279))%N.

Fixpoint trimStart (s : jsstring) : jsstring :=
  match s with
  | [] => []
  | c :: s' => if isWhiteSpace c then trimStart s' else s
  end.

Definition trimEnd (s : jsstring) : jsstring := rev (trimStart (rev s)).

(** [s.trim()] *)
Definition trim (s : jsstring) : jsstring := trimEnd (trimStart s).

(** [s.split(sep)] for a separator of one code unit: never the empty array,
    [''.split(sep)] is [['']]. *)
Fixpoint split (sep : N) (s : jsstring) : list jsstring :=
  match s with
  | [] => [[]]
  | c :: s' =>
      if N.eqb c sep then [] :: split sep s'
      else match split sep s' with
           | piece :: rest => (c :: piece) :: rest
           | [] => [[c]]
           end
  end.

(** [pieces.join(sep)] *)
Fixpoint join (sep : jsstring) (pieces : list jsstring) : jsstring :=
  match pieces with
  | [] => []
  | [p] => p
  | p :: rest => p ++ sep ++ join sep rest
  end.

(** [s.startsWith(p)] *)
Fixpoint startsWith (p s : jsstring) : bool :=
  match p, s with
  | [], _ => true
  | x :: p', y :: s' => N.eqb x y && startsWith p' s'
  | _ :: _, [] => false
  end.

(** [s.includes(p)] *)
Fixpoint includes (p s : jsstring) : bool :=
  startsWith p s || match s with [] => false | _ :: s' => includes p s' end.

(** [s.replace(/[^0-9]/g, '')] *)
Definition isDigit (c : N) : bool := ((48 <=? c) && (c <=? 57))%N.
Definition keepDigits (s : jsstring) : jsstring := filter isDigit s.

(** Decimal digits of a natural number, most significant first. *)
Fixpoint uint_units (d : Decimal.uint) : jsstring :=
  match d with
  | Decimal.Nil => []
  | Decimal.D0 d' => 48%N :: uint_units d'
  | Decimal.D1 d' => 49%N :: uint_units d'
  | Decimal.D2 d' => 50%N :: uint_units d'
  | Decimal.D3 d' => 51%N :: uint_units d'
  | Decimal.D4 d' => 52%N :: uint_units d'
  | Decimal.D5 d' => 53%N :: uint_units d'
  | Decimal.D6 d' => 54%N :: uint_units d'
  | Decimal.D7 d' => 55%N :: uint_units d'
  | Decimal.D8 d' => 56%N :: uint_units d'
  | Decimal.D9 d' => 57%N :: uint_units d'
  end.

(** [String(n)] (what a template literal does to a number) for an integer
    below 10^21 in absolute value, where JavaScript prints plain decimal
    digits: the lengths of arrays and the milliseconds of [Date.now()] are
    such integers, and a run id is one where [plainDigits] says so. *)
Definition Number_toString (n : Z) : jsstring :=
  match n with
  | Z0 => [48%N]
  | Zpos p => uint_units (Pos.to_uint p)
  | Zneg p => 45%N :: uint_units (Pos.to_uint p)
  end.

(** [String(n)] for what [parseInt] gives: an integer, or NaN when the
    text holds no number. *)
Definition numberText (n : option Z) : jsstring :=
  match n with
  | Some z => Number_toString z
  | None => js "NaN"
  end.

(** A number printed on exactly [w] decimal digits, zero-padded: the fields
    of [Date.prototype.toISOString]. *)
Fixpoint fixedWidth (w : nat) (n : N) : jsstring :=
  match w with
  | O => []
  | S w' => fixedWidth w' (n / 10) ++ [(48 + n mod 10)%N]
  end.

End JS.
Import JS.


(* ===================================================================== *)
(** ** The host: everything the two programs read or call *)
(* ===================================================================== *)

(** A line break and the literal [undefined] a template prints. *)
Definition nl : jsstring := [10%N].
Definition undefined_text : jsstring := js "undefined".

(** [`${v}`] for a value that may be [undefined]. *)
Definition template (v : option jsstring) : jsstring :=
  match v with Some s => s | None => undefined_text end.

(** The UTC fields of a [Date]. *)
Record Instant := {
  year : Z;
  month : N;
  day : N;
  hours : N;
  minutes : N;
  seconds : N;
  milliseconds : N
}.

(** Years 0 to 9999 print on four digits, the others signed on six. *)
Definition yearText (y : Z) : jsstring :=
  if ((0 <=? y) && (y <=? 9999))%Z then fixedWidth 4 (Z.to_N y)
  else (if (y <? 0)%Z then js "-" else js "+") ++ fixedWidth 6 (Z.abs_N y).

(** [date.toISOString()]: YYYY-MM-DDTHH:mm:ss.sssZ *)
Definition toISOString (t : Instant) : jsstring :=
  yearText (year t) ++ js "-" ++ fixedWidth 2 (month t) ++ js "-"
  ++ fixedWidth 2 (day t) ++ js "T" ++ fixedWidth 2 (hours t) ++ js ":"
  ++ fixedWidth 2 (minutes t) ++ js ":" ++ fixedWidth 2 (seconds t) ++ js "."
  ++ fixedWidth 3 (milliseconds t) ++ js "Z".

(** Where the clock is read: the source line of the [new Date()], and for
    the lines inside [processFile] the file being processed. What the clock
    shows at each site is an input of the run, as the environment is. *)
Inductive Site :=
| Line (n : nat)
| LineOf (n : nat) (filename : jsstring).

(** A settled promise. *)
Inductive Result (A : Type) :=
| Resolved (data : A)
| Rejected (message : jsstring).
Arguments Rejected {A} message.

(** One entry of the repository contents API; [content] is the base64 text
    of a file, and a string for every entry. *)
Record RepoContent := {
  type : jsstring;
  path : jsstring;
  content : jsstring
}.

(** The [data] of [octokit.rest.repos.getContent]: an object for a file,
    symlink or submodule, an array for a directory. *)
Inductive ContentData :=
| OneItem (item : RepoContent)
| Listing (items : list RepoContent)
| NoData.

(** What a run reads and calls. The inputs are what [core.getInput]
    returns, the text of [debug] included; [context_runId] is
    [parseInt(process.env.GITHUB_RUN_ID, 10)], NaN when the variable holds no
    number; [minimatch] and [base64_utf8] answer for every pair of strings,
    as the two library calls do on strings. *)
Record Host := {
  (* process.env *)
  GITHUB_TOKEN : option jsstring;
  GITHUB_REPOSITORY : option jsstring;
  GITHUB_WORKSPACE : option jsstring;
  (* core.getInput *)
  input_ignore_patterns : jsstring;
  input_action_prompt : jsstring;
  input_agent_id : jsstring;
  input_agent_alias_id : jsstring;
  input_memory_id : jsstring;
  input_debug : jsstring;
  (* github.context *)
  context_eventName : jsstring;
  context_runId : option Z;
  (* octokit.rest.repos: [get] answers the default branch *)
  repos_get : Result jsstring;
  repos_getContent : jsstring -> option jsstring -> Result ContentData;
  (* which of the pending fetches settles next *)
  settles : nat -> nat;
  (* fs: the text of <workspace>/.gitignore when the file exists *)
  gitignore : option jsstring;
  (* the clock: new Date() at a site, and Date.now() *)
  new_Date : Site -> Instant;
  Date_now : Z;
  (* minimatch(path, pattern) *)
  minimatch : jsstring -> jsstring -> bool;
  (* Buffer.from(text, 'base64').toString('utf8') *)
  base64_utf8 : jsstring -> jsstring;
  (* agentWrapper.invokeAgent *)
  invokeAgent :
    jsstring -> jsstring -> jsstring -> jsstring -> option jsstring ->
    Result jsstring
}.

(** The same host with another [debug] input, written as the workflow file
    writes a boolean. *)
Definition with_debug (b : bool) (h : Host) : Host :=
  {| GITHUB_TOKEN := GITHUB_TOKEN h;
     GITHUB_REPOSITORY := GITHUB_REPOSITORY h;
     GITHUB_WORKSPACE := GITHUB_WORKSPACE h;
     input_ignore_patterns := input_ignore_patterns h;
     input_action_prompt := input_action_prompt h;
     input_agent_id := input_agent_id h;
     input_agent_alias_id := input_agent_alias_id h;
     input_memory_id := input_memory_id h;
     input_debug := if b then js "true" else js "false";
     context_eventName := context_eventName h;
     context_runId := context_runId h;
     repos_get := repos_get h;
     repos_getContent := repos_getContent h;
     settles := settles h;
     gitignore := gitignore h;
     new_Date := new_Date h;
     Date_now := Date_now h;
     minimatch := minimatch h;
     base64_utf8 := base64_utf8 h;
     invokeAgent := invokeAgent h |}.

(** The same host with another instruction. *)
Definition with_action_prompt (text : jsstring) (h : Host) : Host :=
  {| GITHUB_TOKEN := GITHUB_TOKEN h;
     GITHUB_REPOSITORY := GITHUB_REPOSITORY h;
     GITHUB_WORKSPACE := GITHUB_WORKSPACE h;
     input_ignore_patterns := input_ignore_patterns h;
     input_action_prompt := text;
     input_agent_id := input_agent_id h;
     input_agent_alias_id := input_agent_alias_id h;
     input_memory_id := input_memory_id h;
     input_debug := input_debug h;
     context_eventName := context_eventName h;
     context_runId := context_runId h;
     repos_get := repos_get h;
     repos_getContent := repos_getContent h;
     settles := settles h;
     gitignore := gitignore h;
     new_Date := new_Date h;
     Date_now := Date_now h;
     minimatch := minimatch h;
     base64_utf8 := base64_utf8 h;
     invokeAgent := invokeAgent h |}.

(* ===================================================================== *)
(** ** Effects: a trace of events, early return and exceptions *)
(* ===================================================================== *)

Inductive Event :=
| core_info (message : jsstring)
| core_warning (message : jsstring)
| core_error (message : jsstring)
| core_setFailed (message : jsstring)
| console_info (text : jsstring)
| agent_invokeAgent (agentId agentAliasId sessionId prompt : jsstring)
                    (memoryId : option jsstring).

(** How a block of statements ends. *)
Inductive Completion (A : Type) :=
| Normal (value : A)
| Return
| Throw (message : jsstring).
Arguments Return {A}.
Arguments Throw {A} message.

Definition Run (A : Type) : Type := (list Event * Completion A)%type.

Definition ret {A} (a : A) : Run A := ([], Normal a).

Definition bind {A B} (m : Run A) (k : A -> Run B) : Run B :=
  match m with
  | (t, Normal a) => (t ++ fst (k a), snd (k a))
  | (t, Return) => (t, Return)
  | (t, Throw message) => (t, Throw message)
  end.

Definition emit (e : Event) : Run unit := ([e], Normal tt).
Definition emits (events : list Event) : Run unit := (events, Normal tt).
Definition return_ {A} : Run A := ([], Return).
Definition throw {A} (message : jsstring) : Run A := ([], Throw message).

(** [await p] *)
Definition await {A} (p : Result A) : Run A :=
  match p with
  | Resolved a => ret a
  | Rejected message => throw message
  end.

(** [if (c) { m }] *)
Definition when (c : bool) (m : Run unit) : Run unit :=
  if c then m else ret tt.

(** [try { m } catch (error) { handler(error.message) }] around a whole
    function body: the events of the run. *)
Definition try_catch (m : Run unit) (handler : jsstring -> list Event)
  : list Event :=
  match m with
  | (t, Throw message) => t ++ handler message
  | (t, _) => t
  end.

Declare Scope run_scope.
Delimit Scope run_scope with run.
Notation "x <- m ;; k" := (bind m (fun x => k))
  (at level 61, m at next level, right associativity) : run_scope.
Notation "m ;; k" := (bind m (fun _ => k))
  (at level 61, right associativity) : run_scope.
Local Open Scope run_scope.

(** *** The actions toolkit *)

(** The two lists [core.getBooleanInput] looks its input up in. *)
Definition parseBoolean (val : jsstring) : option bool :=
  if existsb (eqb val) [js "true"; js "True"; js "TRUE"] then Some true
  else if existsb (eqb val) [js "false"; js "False"; js "FALSE"]
       then Some false
       else None.

(** The message of the TypeError [core.getBooleanInput] throws. *)
Definition notBoolean (name : jsstring) : jsstring :=
  js "Input does not meet YAML 1.2 " ++ dquote ++ js "Core Schema" ++ dquote
  ++ js " specification: " ++ name ++ nl
  ++ js "Support boolean input list: `true | True | TRUE | false | False | FALSE`".

(** [core.getBooleanInput(name)] on the text [val] of the input. *)
Definition getBooleanInput (name val : jsstring) : Run bool :=
  match parseBoolean val with
  | Some b => ret b
  | None => throw (notBoolean name)
  end.

(** The message of the Error [github.getOctokit] throws on a token that is
    undefined or empty. *)
Definition noToken : jsstring := js "Parameter token or opts.auth is required".

(** How a script ends: an exception nothing catches, thrown while the module
    loads, or the events of [main]. *)
Inductive Outcome :=
| Crashed (message : jsstring)
| Ran (events : list Event).

(** [getTimestamp()] *)
Definition getTimestamp (h : Host) (site : Site) : jsstring :=
  toISOString (new_Date h site).

(** A message behind its [[timestamp]] prefix. *)
Definition stamped (h : Host) (site : Site) (message : jsstring) : jsstring :=
  js "[" ++ getTimestamp h site ++ js "] " ++ message.

(** [!process.env[name]] *)
Definition missing (v : option jsstring) : bool :=
  match v with Some s => negb (Boolean s) | None => true end.

(** The order in which pending promises settle: at each step the host picks
    one of those still pending. *)
Fixpoint take_nth {A} (k : nat) (l : list A) : option (A * list A) :=
  match l with
  | [] => None
  | x :: l' =>
      match k with
      | O => Some (x, l')
      | S k' =>
          match take_nth k' l' with
          | Some (y, rest) => Some (y, x :: rest)
          | None => None
          end
      end
  end.

Fixpoint settle_order {A} (n : nat) (pick : nat -> nat) (pending : list A)
  : list A :=
  match n with
  | O => []
  | S n' =>
      match take_nth (pick n' mod length pending) pending with
      | Some (x, rest) => x :: settle_order n' pick rest
      | None => []
      end
  end.

(* ===================================================================== *)
(** ** src/index.js *)
(* ===================================================================== *)

(** [main] and the functions it calls, then the script, which builds the
    two clients of lines 9 and 10 while the module loads and calls [main] at
    line 207. The clients are the oracles of the host. *)
Module Index.

(** An element of [changedFiles]. *)
Record FileRecord := {
  filename : jsstring;
  status : jsstring
}.

(** *** The inputs, lines 28 to 39 *)

Definition ignorePatterns (h : Host) : list jsstring :=
  filter Boolean (map trim (split 44 (input_ignore_patterns h))).

Definition actionPrompt (h : Host) : jsstring := trim (input_action_prompt h).
Definition agentId (h : Host) : jsstring := trim (input_agent_id h).
Definition agentAliasId (h : Host) : jsstring := trim (input_agent_alias_id h).

(** The constant [debug] of line 34, which is read only where line 34 has
    returned. *)
Definition debug (h : Host) : bool :=
  match parseBoolean (input_debug h) with
  | Some b => b
  | None => false
  end.

(** [core.getInput('memory_id').trim() || undefined] *)
Definition memoryId (h : Host) : option jsstring :=
  let trimmed := trim (input_memory_id h) in
  if Boolean trimmed then Some trimmed else None.

Definition githubRepository (h : Host) : jsstring :=
  match GITHUB_REPOSITORY h with Some s => s | None => [] end.

(** [const [owner, repo] = githubRepository.split('/')] *)
Definition owner (h : Host) : option jsstring :=
  nth_error (split 47 (githubRepository h)) 0.
Definition repo (h : Host) : option jsstring :=
  nth_error (split 47 (githubRepository h)) 1.

(** *** The trigger, lines 43 to 100 *)

(** Lines 50 to 68, and again 77 to 95: the files at the root of the default
    branch. *)
Definition repositoryFiles (h : Host) : Run (list FileRecord) :=
  defaultBranch <- await (repos_get h) ;;
  repoContents <- await (repos_getContent h [] (Some defaultBranch)) ;;
  match repoContents with
  | Listing items =>
      ret (map (fun file => {| filename := path file;
                               status := js "analyzed" |})
               (filter (fun item => eqb (type item) (js "file")) items))
  | OneItem _ => throw (js "repoContents.filter is not a function")
  | NoData =>
      throw (js "Cannot read properties of undefined (reading 'filter')")
  end.

(** The run's [sessionId] and [changedFiles]. *)
Definition trigger (h : Host) : Run (jsstring * list FileRecord) :=
  let eventName := context_eventName h in
  if eqb eventName (js "workflow_dispatch") then
    let workflowId := context_runId h in
    let sessionId := js "workflow-" ++ numberText workflowId in
    emit (core_info (stamped h (Line 47)
            (js "Processing workflow_dispatch (ID: "
             ++ numberText workflowId ++ js ") in repository "
             ++ template (owner h) ++ js "/" ++ template (repo h)))) ;;
    changedFiles <- repositoryFiles h ;;
    ret (sessionId, changedFiles)
  else if eqb eventName (js "schedule") then
    let scheduleId := keepDigits (toISOString (new_Date h (Line 72))) in
    let sessionId := js "schedule-" ++ scheduleId in
    emit (core_info (stamped h (Line 74)
            (js "Processing scheduled event (ID: " ++ scheduleId
             ++ js ") in repository "
             ++ template (owner h) ++ js "/" ++ template (repo h)))) ;;
    changedFiles <- repositoryFiles h ;;
    ret (sessionId, changedFiles)
  else
    emit (core_setFailed
            (js "Unsupported event type: " ++ eventName
             ++ js ". This action only supports workflow_dispatch and schedule events.")) ;;
    return_.

(** *** The ignore rules, lines 104 to 118 *)

(** Lines 108 to 110, the patterns of the text of .gitignore. *)
Definition readPatterns (text : jsstring) : list jsstring :=
  filter (fun line => Boolean line && negb (startsWith (js "#") line))
         (map trim (split 10 text)).

(** [gitignorePatterns] once line 115 is passed. *)
Definition gitignorePatterns (h : Host) : list jsstring :=
  match gitignore h with
  | Some text => readPatterns text
  | None => []
  end.

(** [path.join(process.env.GITHUB_WORKSPACE, '.gitignore')] throws on an
    undefined workspace. *)
Definition loadGitignore (h : Host) : Run (list jsstring) :=
  match GITHUB_WORKSPACE h with
  | None =>
      throw (js "The " ++ dquote ++ js "path" ++ dquote
             ++ js " argument must be of type string. Received undefined")
  | Some _ =>
      match gitignore h with
      | Some text =>
          let gitignorePatterns := readPatterns text in
          when (debug h)
            (emit (core_info (stamped h (Line 113)
                     (js "Loaded .gitignore patterns:" ++ nl
                      ++ join (js ", ") gitignorePatterns)))) ;;
          ret gitignorePatterns
      | None => ret []
      end
  end.

(** Line 118. *)
Definition allIgnorePatterns (h : Host) : list jsstring :=
  ignorePatterns h ++ gitignorePatterns h.

(** *** processFile, lines 167 to 187 *)

(** The text pushed on [relevantCode], line 177. *)
Definition contentBlock (filename content : jsstring) : jsstring :=
  js "Content of " ++ filename ++ nl ++ js "```" ++ nl ++ content ++ nl
  ++ js "```" ++ nl.

(** The text pushed on [relevantDiffs], line 185. *)
Definition statusEntry (filename status : jsstring) : jsstring :=
  js "File: " ++ filename ++ js " (Status: " ++ status ++ js ")" ++ nl.

(** [ignorePatterns.some(pattern => minimatch(filename, pattern))] *)
Definition isIgnored (h : Host) (filename : jsstring)
    (ignorePatterns : list jsstring) : bool :=
  existsb (fun pattern => minimatch h filename pattern) ignorePatterns.

(** The two arrays the calls of [processFile] share. *)
Definition Lists : Type := (list jsstring * list jsstring)%type.

(** Lines 173 to 185, what runs once the fetch has settled. *)
Definition afterFetch (h : Host) (file : FileRecord)
    (fetched : Result ContentData) (relevantCode relevantDiffs : list jsstring)
  : list Event * Lists :=
  let filename := filename file in
  let status := status file in
  let '(events, relevantCode) :=
    match fetched with
    | Resolved (OneItem fileContent) =>
        if eqb (type fileContent) (js "file") then
          let content := base64_utf8 h (content fileContent) in
          ([core_info (stamped h (LineOf 178 filename)
              (js "Added file content for analysis: " ++ filename
               ++ js " (Status: " ++ status ++ js ")"))],
           relevantCode ++ [contentBlock filename content])
        else ([], relevantCode)
    | Resolved _ => ([], relevantCode)
    | Rejected message =>
        ([core_error (stamped h (LineOf 181 filename)
            (js "Error fetching content for file " ++ filename ++ js ": "
             ++ message))],
         relevantCode)
    end in
  (events, (relevantCode, relevantDiffs ++ [statusEntry filename status])).

Definition processFile (h : Host) (file : FileRecord)
    (ignorePatterns : list jsstring) (relevantCode relevantDiffs : list jsstring)
  : list Event * Lists :=
  if negb (isIgnored h (filename file) ignorePatterns) then
    afterFetch h file (repos_getContent h (filename file) None)
               relevantCode relevantDiffs
  else ([], (relevantCode, relevantDiffs)).

(** Line 123, [Promise.all(changedFiles.map(file => processFile(...)))]:
    every call runs up to its [await] at once, so the ignored files are done
    before any fetch settles; the others resume one at a time, in the order
    their fetches settle. *)
Definition processFiles (h : Host) (changedFiles : list FileRecord)
    (ignorePatterns : list jsstring) : list Event * Lists :=
  let pending :=
    filter (fun file => negb (isIgnored h (filename file) ignorePatterns))
           changedFiles in
  fold_left
    (fun acc file =>
       let '(events, (relevantCode, relevantDiffs)) := acc in
       let '(events', lists) :=
         processFile h file ignorePatterns relevantCode relevantDiffs in
       (events ++ events', lists))
    (settle_order (length pending) (settles h) pending)
    ([], ([], [])).

(** *** The prompt, lines 132 to 135 *)

Definition diffsPrompt (relevantDiffs : list jsstring) : jsstring :=
  js "Changes:" ++ nl ++ join [] relevantDiffs.

Definition prompt (relevantCode relevantDiffs : list jsstring)
    (actionPrompt : jsstring) : jsstring :=
  if negb (length relevantCode =? 0)%nat then
    js "Content of Affected Files:" ++ nl ++ join [] relevantCode ++ nl
    ++ js "Use the files above to provide context on the changes made." ++ nl
    ++ diffsPrompt relevantDiffs ++ nl ++ actionPrompt
  else diffsPrompt relevantDiffs ++ nl ++ actionPrompt.

(** *** formatMarkdownAnalysis, lines 190 to 199 *)

Definition formatMarkdownAnalysis (h : Host) (response eventType : jsstring)
    (filesAnalyzed diffsAnalyzed : nat) (changedFiles : list FileRecord)
  : jsstring :=
  let fileSummary :=
    join nl (map (fun file => js "- **" ++ filename file ++ js "**: "
                              ++ status file) changedFiles) in
  let eventTypeDisplay :=
    if eqb eventType (js "workflow_dispatch") then js "Workflow Dispatch"
    else js "Scheduled Run" in
  let timestamp := toISOString (new_Date h (Line 196)) in
  js "## Analysis for " ++ eventTypeDisplay ++ js " (Time: " ++ timestamp
  ++ js ")" ++ nl ++ nl ++ js "### Files Analyzed: "
  ++ Number_toString (Z.of_nat filesAnalyzed) ++ nl
  ++ js "### Diffs Analyzed: " ++ Number_toString (Z.of_nat diffsAnalyzed)
  ++ nl ++ nl ++ js "### Files Processed:" ++ nl ++ fileSummary ++ nl ++ nl
  ++ response.

(** *** main, lines 12 to 163 *)

(** Lines 14 to 118: up to the merged ignore rules. *)
Definition prelude (h : Host)
  : Run (jsstring * list FileRecord * list jsstring) :=
  emit (core_info (stamped h (Line 14) (js "Starting GitHub Action"))) ;;
  if missing (GITHUB_TOKEN h) || missing (GITHUB_REPOSITORY h) then
    emit (core_setFailed
            (js "Error: Missing required environment variables: "
             ++ join (js ", ") [js "GITHUB_TOKEN"; js "GITHUB_REPOSITORY"]
             ++ js ".")) ;;
    return_
  else
    _ <- getBooleanInput (js "debug") (input_debug h) ;;
    session <- trigger h ;;
    let '(sessionId, changedFiles) := session in
    emit (core_info (stamped h (Line 102)
            (js "Retrieved "
             ++ Number_toString (Z.of_nat (length changedFiles))
             ++ js " changed files"))) ;;
    gitignorePatterns <- loadGitignore h ;;
    ret (sessionId, changedFiles, ignorePatterns h ++ gitignorePatterns).

(** Lines 120 to 159. The test of line 138 is left out: a template literal
    is a string. *)
Definition analyse (h : Host) (sessionId : jsstring)
    (changedFiles : list FileRecord) (allIgnorePatterns : list jsstring)
  : Run unit :=
  let '(events, (relevantCode, relevantDiffs)) :=
    processFiles h changedFiles allIgnorePatterns in
  emits events ;;
  if (length relevantDiffs =? 0)%nat && (length relevantCode =? 0)%nat then
    emit (core_warning (stamped h (Line 127)
            (js "No relevant files or diffs found for analysis."))) ;;
    return_
  else
    let prompt := prompt relevantCode relevantDiffs (actionPrompt h) in
    when (debug h)
      (emit (core_info (stamped h (Line 144)
               (js "Generated prompt for Bedrock Agent:" ++ nl ++ prompt)))) ;;
    emit (core_info (stamped h (Line 148)
            (js "Invoking Bedrock Agent with session ID: " ++ sessionId
             ++ js " and memory ID: " ++ template (memoryId h)))) ;;
    emit (agent_invokeAgent (agentId h) (agentAliasId h) sessionId prompt
                            (memoryId h)) ;;
    agentResponse <-
      await (invokeAgent h (agentId h) (agentAliasId h) sessionId prompt
                         (memoryId h)) ;;
    when (debug h)
      (emit (core_info (stamped h (Line 152)
               (js "Bedrock Agent response:" ++ nl ++ agentResponse)))) ;;
    emit (core_info (stamped h (Line 156)
            (js "Printing analysis for " ++ context_eventName h
             ++ js " event"))) ;;
    let analysisOutput :=
      formatMarkdownAnalysis h agentResponse (context_eventName h)
        (length relevantCode) (length relevantDiffs) changedFiles in
    emit (console_info analysisOutput) ;;
    emit (core_info (stamped h (Line 159)
            (js "Analysis output printed to console"))).

(** The events of one run. *)
Definition main (h : Host) : list Event :=
  try_catch
    (context <- prelude h ;;
     let '(sessionId, changedFiles, allIgnorePatterns) := context in
     analyse h sessionId changedFiles allIgnorePatterns)
    (fun message =>
       [core_setFailed (stamped h (Line 161) (js "Error: " ++ message))]).

(** The script: lines 9 and 10 build the two clients while the module loads,
    and [github.getOctokit] throws on a missing token, before line 207
    calls [main]. *)
Definition script (h : Host) : Outcome :=
  if missing (GITHUB_TOKEN h) then Crashed noToken else Ran (main h).

End Index.

(* ===================================================================== *)
(** ** src/unnamed/part_000: the prompt forwarded as it is *)
(* ===================================================================== *)

Module Part000.

Definition actionPrompt (h : Host) : jsstring := trim (input_action_prompt h).
Definition agentId (h : Host) : jsstring := trim (input_agent_id h).
Definition agentAliasId (h : Host) : jsstring := trim (input_agent_alias_id h).

(** The constant [debug] of line 16, which is read only where line 16 has
    returned. *)
Definition debug (h : Host) : bool :=
  match parseBoolean (input_debug h) with
  | Some b => b
  | None => false
  end.

(** [core.getInput('memory_id').trim() || undefined] *)
Definition memoryId (h : Host) : option jsstring :=
  let trimmed := trim (input_memory_id h) in
  if Boolean trimmed then Some trimmed else None.

(** Line 19. *)
Definition sessionId (h : Host) : jsstring :=
  js "session-" ++ Number_toString (Date_now h).

(** The events of one run, lines 7 to 37. *)
Definition main (h : Host) : list Event :=
  try_catch
    (emit (core_info (stamped h (Line 9) (js "Starting GitHub Action"))) ;;
     _ <- getBooleanInput (js "debug") (input_debug h) ;;
     when (debug h)
       (emit (core_info (stamped h (Line 22)
                (js "Using prompt: " ++ actionPrompt h))) ;;
        emit (core_info (stamped h (Line 23)
                (js "Session ID: " ++ sessionId h)))) ;;
     emit (core_info (stamped h (Line 27) (js "Invoking Bedrock Agent"))) ;;
     emit (agent_invokeAgent (agentId h) (agentAliasId h) (sessionId h)
                             (actionPrompt h) (memoryId h)) ;;
     agentResponse <-
       await (invokeAgent h (agentId h) (agentAliasId h) (sessionId h)
                          (actionPrompt h) (memoryId h)) ;;
     emit (console_info (js "## Bedrock Agent Response" ++ nl ++ nl
                         ++ agentResponse)) ;;
     emit (core_info (stamped h (Line 32)
             (js "Action completed successfully"))))
    (fun message =>
       [core_setFailed (stamped h (Line 35) (js "Error: " ++ message))]).

End Part000.

(* ===================================================================== *)
(** ** Vocabulary of the specification *)
(* ===================================================================== *)

(** The rule set as the specification words it: the caller's list split on
    commas, each entry trimmed, the empty entries dropped; then the lines of
    the ignore file, trimmed, without the empty lines and the comment
    lines. *)
Module PatternFilter.

Definition dropEmpty (entries : list jsstring) : list jsstring :=
  filter (fun entry => negb (eqb entry [])) entries.

Definition isComment (line : jsstring) : bool :=
  match line with
  | c :: _ => N.eqb c 35
  | [] => false
  end.

Definition callerRules (callerPatterns : jsstring) : list jsstring :=
  dropEmpty (map trim (split 44 callerPatterns)).

Definition fileRules (ignoreFileText : option jsstring) : list jsstring :=
  match ignoreFileText with
  | Some text =>
      filter (fun line => negb (isComment line))
             (dropEmpty (map trim (split 10 text)))
  | None => []
  end.

Definition merge (callerPatterns : jsstring) (ignoreFileText : option jsstring)
  : list jsstring :=
  callerRules callerPatterns ++ fileRules ignoreFileText.

End PatternFilter.

(** The content blocks a file is due: one when its fetch resolves to an item
    of type 'file', none otherwise. *)
Definition blocksOf (h : Host) (file : Index.FileRecord) : list jsstring :=
  match repos_getContent h (Index.filename file) None with
  | Resolved (OneItem item) =>
      if eqb (type item) (js "file")
      then [Index.contentBlock (Index.filename file)
              (base64_utf8 h (content item))]
      else []
  | _ => []
  end.

(** The status entry of a file. *)
Definition entryOf (file : Index.FileRecord) : jsstring :=
  Index.statusEntry (Index.filename file) (Index.status file).

(** The log lines of a file that is processed. *)
Definition logOf (h : Host) (file : Index.FileRecord) : list Event :=
  fst (Index.afterFetch h file
         (repos_getContent h (Index.filename file) None) [] []).

(** The agent invocation of a run of index.js whose lists are not both
    empty, line 149. *)
Definition agentCall (h : Host) (sessionId : jsstring)
    (relevantCode relevantDiffs : list jsstring) : Event :=
  agent_invokeAgent (Index.agentId h) (Index.agentAliasId h) sessionId
    (Index.prompt relevantCode relevantDiffs (Index.actionPrompt h))
    (Index.memoryId h).

(** Both lists are empty, the test of line 126. *)
Definition nothingToAnalyse (lists : Index.Lists) : bool :=
  (length (snd lists) =? 0)%nat && (length (fst lists) =? 0)%nat.

(** The files the pattern filter lets through. *)
Definition survivors (h : Host) (files : list Index.FileRecord)
    (rules : list jsstring) : list Index.FileRecord :=
  filter (fun file => negb (Index.isIgnored h (Index.filename file) rules))
         files.

Definition is_info (e : Event) : bool :=
  match e with core_info _ => true | _ => false end.

Definition is_report (e : Event) : bool :=
  match e with console_info _ => true | _ => false end.

Definition is_failure (e : Event) : bool :=
  match e with core_setFailed _ => true | _ => false end.

Definition is_agent_call (e : Event) : bool :=
  match e with agent_invokeAgent _ _ _ _ _ => true | _ => false end.

(** What a run produces besides its informational log lines. *)
Definition produced (events : list Event) : list Event :=
  filter (fun e => negb (is_info e)) events.

(** What a run does besides printing the report. *)
Definition unreported (events : list Event) : list Event :=
  filter (fun e => negb (is_report e)) events.


(** Two runs that differ in their informational log lines at most. *)
Definition same_data {A} (m1 m2 : Run A) : Prop :=
  produced (fst m1) = produced (fst m2) /\ snd m1 = snd m2.



(* ===================================================================== *)
(** ** Sample hosts *)
(* ===================================================================== *)

Definition noon : Instant :=
  {| year := 2024; month := 5; day := 17; hours := 12; minutes := 0;
     seconds := 30; milliseconds := 250 |}.


(** [minimatch] on patterns without wildcard characters: the pattern matches
    the path equal to it. *)
Definition literal_match (path pattern : jsstring) : bool := eqb path pattern.

Definition file_item (name text : jsstring) : RepoContent :=
  {| type := js "file"; path := name; content := text |}.

(** A repository with a.txt and b.log at its root; a.txt holds the base64 of
    hello and the fetch of anything else is rejected. *)
Definition sample_host (eventName ignore_patterns action_prompt memory_id
    : jsstring) (debug : bool) : Host :=
  {| GITHUB_TOKEN := Some (js "token");
     GITHUB_REPOSITORY := Some (js "octo/repo");
     GITHUB_WORKSPACE := Some (js "/work");
     input_ignore_patterns := ignore_patterns;
     input_action_prompt := action_prompt;
     input_agent_id := js "AGENT";
     input_agent_alias_id := js "ALIAS";
     input_memory_id := memory_id;
     input_debug := if debug then js "true" else js "false";
     context_eventName := eventName;
     context_runId := Some 42%Z;
     repos_get := Resolved (js "main");
     repos_getContent := fun path _ =>
       if eqb path [] then
         Resolved (Listing [file_item (js "a.txt") [];
                            file_item (js "b.log") []])
       else if eqb path (js "a.txt") then
         Resolved (OneItem (file_item (js "a.txt") (js "aGVsbG8=")))
       else Rejected (js "Not Found");
     settles := fun _ => O;
     gitignore := None;
     new_Date := fun _ => noon;
     Date_now := 1715947230250;
     minimatch := literal_match;
     base64_utf8 := fun text =>
       if eqb text (js "aGVsbG8=") then js "hello" else [];
     invokeAgent := fun _ _ _ _ _ => Resolved (js "Looks fine.") |}.

(** The caller ignores b.log. *)
Definition sample : Host :=
  sample_host (js "workflow_dispatch") (js "b.log")
              (js "Review the repository.") (js "") false.

(** The same run with a blank instruction. *)
Definition sample_blank_instruction : Host :=
  sample_host (js "workflow_dispatch") (js "b.log") (js "  ") (js "") false.

(** The caller ignores both files. *)
Definition sample_all_ignored : Host :=
  sample_host (js "workflow_dispatch") (js "a.txt, b.log")
              (js "Review the repository.") (js "") false.

(** A scheduled run with a memory id. *)
Definition sample_scheduled : Host :=
  sample_host (js "schedule") (js "b.log") (js "Review the repository.")
              (js " memory-1 ") true.

Definition a_txt : Index.FileRecord :=
  {| Index.filename := js "a.txt"; Index.status := js "analyzed" |}.
Definition b_log : Index.FileRecord :=
  {| Index.filename := js "b.log"; Index.status := js "analyzed" |}.

(** The same host with other answers from its services: the workspace
    variable, the repository lookup and the agent. *)
Definition with_services (workspace : option jsstring)
    (lookup agent : Result jsstring) (h : Host) : Host :=
  {| GITHUB_TOKEN := GITHUB_TOKEN h;
     GITHUB_REPOSITORY := GITHUB_REPOSITORY h;
     GITHUB_WORKSPACE := workspace;
     input_ignore_patterns := input_ignore_patterns h;
     input_action_prompt := input_action_prompt h;
     input_agent_id := input_agent_id h;
     input_agent_alias_id := input_agent_alias_id h;
     input_memory_id := input_memory_id h;
     input_debug := input_debug h;
     context_eventName := context_eventName h;
     context_runId := context_runId h;
     repos_get := lookup;
     repos_getContent := repos_getContent h;
     settles := settles h;
     gitignore := gitignore h;
     new_Date := new_Date h;
     Date_now := Date_now h;
     minimatch := minimatch h;
     base64_utf8 := base64_utf8 h;
     invokeAgent := fun _ _ _ _ _ => agent |}.

(** The sample run without a workspace variable. *)
Definition sample_no_workspace : Host :=
  with_services None (Resolved (js "main")) (Resolved (js "Looks fine."))
                sample.

(** The sample run when the repository lookup is refused. *)
Definition sample_lookup_refused : Host :=
  with_services (Some (js "/work")) (Rejected (js "Bad credentials"))
                (Resolved (js "Looks fine.")) sample.

(** The sample run when the agent is throttled. *)
Definition sample_agent_throttled : Host :=
  with_services (Some (js "/work")) (Resolved (js "main"))
                (Rejected (js "Rate exceeded")) sample.

(** The sample run of a workflow that passes no debug input. *)
Definition sample_without_debug : Host :=
  {| GITHUB_TOKEN := GITHUB_TOKEN sample;
     GITHUB_REPOSITORY := GITHUB_REPOSITORY sample;
     GITHUB_WORKSPACE := GITHUB_WORKSPACE sample;
     input_ignore_patterns := input_ignore_patterns sample;
     input_action_prompt := input_action_prompt sample;
     input_agent_id := input_agent_id sample;
     input_agent_alias_id := input_agent_alias_id sample;
     input_memory_id := input_memory_id sample;
     input_debug := [];
     context_eventName := context_eventName sample;
     context_runId := context_runId sample;
     repos_get := repos_get sample;
     repos_getContent := repos_getContent sample;
     settles := settles sample;
     gitignore := gitignore sample;
     new_Date := new_Date sample;
     Date_now := Date_now sample;
     minimatch := minimatch sample;
     base64_utf8 := base64_utf8 sample;
     invokeAgent := invokeAgent sample |}.

(** A file whose fetch the sample host rejects. *)
Definition c_bin : Index.FileRecord :=
  {| Index.filename := js "c.bin"; Index.status := js "analyzed" |}.

Definition is_error (e : Event) : bool :=
  match e with core_error _ => true | _ => false end.

(** The fetch of a file is rejected. *)
Definition fetchRejected (h : Host) (file : Index.FileRecord) : bool :=
  match repos_getContent h (Index.filename file) None with
  | Rejected _ => true
  | Resolved _ => false
  end.


(** How many agent invocations, failure signals and reports a run holds. *)
Definition tally (events : list Event) : nat * nat * nat :=
  (length (filter is_agent_call events),
   length (filter is_failure events),
   length (filter is_report events)).

(* ===================================================================== *)
(** ** Strings and lists *)
(* ===================================================================== *)

Unset Implicit Arguments.

Lemma eqb_eq (a b : jsstring) : eqb a b = true <-> a = b.
Proof.
  revert b; induction a as [|x a IH]; intros [|y b]; simpl;
    try (split; [discriminate | congruence]); try tauto.
  rewrite andb_true_iff, N.eqb_eq, IH. split.
  - intros [-> ->]; reflexivity.
  - intros E; injection E; auto.
Qed.

Lemma eqb_refl (a : jsstring) : eqb a a = true.
Proof. apply eqb_eq; reflexivity. Qed.

Lemma eqb_neq (a b : jsstring) : eqb a b = false <-> a <> b.
Proof.
  rewrite <- eqb_eq. destruct (eqb a b); split; congruence.
Qed.

Lemma Boolean_nonempty (s : jsstring) : Boolean s = negb (eqb s []).
Proof. destruct s; reflexivity. Qed.

Lemma join_empty_concat (pieces : list jsstring) : join [] pieces = concat pieces.
Proof.
  induction pieces as [|p [|q rest] IH]; simpl in *.
  - reflexivity.
  - now rewrite app_nil_r.
  - now rewrite IH.
Qed.

Lemma split_nonempty (sep : N) (s : jsstring) : split sep s <> [].
Proof.
  destruct s as [|c s]; simpl; [discriminate|].
  destruct (N.eqb c sep); [discriminate|].
  destruct (split sep s); discriminate.
Qed.

(** Splitting and joining on the same separator gives the string back. *)
Lemma join_split (sep : N) (s : jsstring) : join [sep] (split sep s) = s.
Proof.
  induction s as [|c s IH]; [reflexivity|]. cbn [split].
  pose proof (split_nonempty sep s) as K.
  destruct (N.eqb_spec c sep) as [->|D].
  - destruct (split sep s) as [|piece rest] eqn:E; [contradiction|].
    change (join [sep] ([] :: piece :: rest))
      with ([] ++ [sep] ++ join [sep] (piece :: rest)).
    now rewrite IH.
  - destruct (split sep s) as [|piece [|next rest]] eqn:E.
    + contradiction.
    + cbn [join] in *. now rewrite IH.
    + change (join [sep] ((c :: piece) :: next :: rest))
        with (c :: join [sep] (piece :: next :: rest)).
      now rewrite IH.
Qed.

Lemma startsWith_app (p s : jsstring) : startsWith p (p ++ s) = true.
Proof. induction p as [|c p IH]; simpl; [|rewrite N.eqb_refl]; auto. Qed.

Lemma startsWith_spec (p s : jsstring) :
  startsWith p s = true <-> exists rest, s = p ++ rest.
Proof.
  split.
  - revert s; induction p as [|c p IH]; intros s H; simpl in *.
    + now exists s.
    + destruct s as [|d s]; [discriminate|].
      apply andb_true_iff in H as [E H]. apply N.eqb_eq in E as ->.
      destruct (IH _ H) as [rest ->]. now exists rest.
  - intros [rest ->]. apply startsWith_app.
Qed.

Lemma includes_here (p s : jsstring) :
  startsWith p s = true -> includes p s = true.
Proof. intros H. destruct s; simpl; rewrite H; reflexivity. Qed.

Lemma includes_spec (p s : jsstring) :
  includes p s = true <-> exists before after, s = before ++ p ++ after.
Proof.
  split.
  - induction s as [|c s IH]; simpl; intros H.
    + rewrite orb_false_r in H. apply startsWith_spec in H as [rest E].
      exists [], rest. exact E.
    + apply orb_true_iff in H as [H|H].
      * apply startsWith_spec in H as [rest E]. exists [], rest. exact E.
      * destruct (IH H) as (before & after & ->).
        now exists (c :: before), after.
  - intros (before & after & ->).
    induction before as [|c before IH]; simpl.
    + apply includes_here, startsWith_app.
    + rewrite IH. apply orb_true_r.
Qed.

Lemma includes_app_l (p a b : jsstring) :
  includes p a = true -> includes p (a ++ b) = true.
Proof.
  rewrite !includes_spec. intros (x & y & ->).
  exists x, (y ++ b). now rewrite <- !app_assoc.
Qed.

Lemma includes_app_r (p a b : jsstring) :
  includes p b = true -> includes p (a ++ b) = true.
Proof.
  rewrite !includes_spec. intros (x & y & ->).
  exists (a ++ x), y. now rewrite <- !app_assoc.
Qed.

Lemma includes_join (p sep : jsstring) (pieces : list jsstring) :
  In p pieces -> includes p (join sep pieces) = true.
Proof.
  induction pieces as [|q [|r rest] IH]; simpl; intros H.
  - contradiction.
  - destruct H as [->|[]]. apply includes_spec. exists [], [].
    now rewrite app_nil_r.
  - destruct H as [->|H].
    + apply includes_app_l, includes_spec. exists [], [].
      now rewrite app_nil_r.
    + apply includes_app_r, includes_app_r, IH, H.
Qed.


(* ===================================================================== *)
(** ** The order in which fetches settle *)
(* ===================================================================== *)

Lemma take_nth_Permutation {A} (k : nat) (l : list A) x rest :
  take_nth k l = Some (x, rest) -> Permutation l (x :: rest).
Proof.
  revert k x rest; induction l as [|y l IH]; intros [|k] x rest; simpl;
    try discriminate.
  - intros E; injection E as <- <-. reflexivity.
  - destruct (take_nth k l) as [[z r]|] eqn:E; [|discriminate].
    intros E'; injection E' as <- <-.
    rewrite (IH _ _ _ E). apply perm_swap.
Qed.

Lemma take_nth_Some {A} (k : nat) (l : list A) :
  k < length l -> exists x rest, take_nth k l = Some (x, rest).
Proof.
  revert k; induction l as [|y l IH]; intros [|k]; simpl; try lia.
  - eauto.
  - intros H. destruct (IH k) as (x & rest & ->); [lia | eauto].
Qed.

Lemma settle_order_Permutation {A} (pick : nat -> nat) (pending : list A) :
  Permutation (settle_order (length pending) pick pending) pending.
Proof.
  remember (length pending) as n eqn:E. revert pending E.
  induction n as [|n IH]; intros pending E; simpl.
  - destruct pending; [reflexivity | discriminate].
  - destruct (take_nth_Some (pick n mod length pending) pending)
      as (x & rest & T).
    { apply Nat.mod_upper_bound. rewrite <- E. discriminate. }
    rewrite T. pose proof (take_nth_Permutation _ _ _ _ T) as P.
    rewrite P. constructor. apply IH.
    apply Permutation_length in P. simpl in P. lia.
Qed.

(* ===================================================================== *)
(** ** processFile and the aggregation *)
(* ===================================================================== *)

Lemma isIgnored_spec (h : Host) (filename : jsstring) (rules : list jsstring) :
  Index.isIgnored h filename rules = true
  <-> exists pattern, In pattern rules /\ minimatch h filename pattern = true.
Proof. unfold Index.isIgnored. apply existsb_exists. Qed.

Lemma processFile_ignored h file rules relevantCode relevantDiffs :
  Index.isIgnored h (Index.filename file) rules = true ->
  Index.processFile h file rules relevantCode relevantDiffs
  = ([], (relevantCode, relevantDiffs)).
Proof. unfold Index.processFile. now intros ->. Qed.

Lemma processFile_kept h file rules relevantCode relevantDiffs :
  Index.isIgnored h (Index.filename file) rules = false ->
  Index.processFile h file rules relevantCode relevantDiffs
  = (logOf h file,
     (relevantCode ++ blocksOf h file, relevantDiffs ++ [entryOf file])).
Proof.
  unfold Index.processFile, logOf, blocksOf, entryOf, Index.afterFetch.
  intros ->. simpl.
  destruct (repos_getContent h (Index.filename file) None) as [[item| |]|];
    simpl; rewrite ?app_nil_r; try reflexivity.
  destruct (eqb (type item) (js "file")); simpl; rewrite ?app_nil_r;
    reflexivity.
Qed.

Lemma survivors_kept h files rules file :
  In file (survivors h files rules) ->
  Index.isIgnored h (Index.filename file) rules = false.
Proof.
  unfold survivors. rewrite filter_In. intros [_ H].
  now apply negb_true_iff in H.
Qed.

Lemma resume_all h rules (order : list Index.FileRecord) :
  (forall file, In file order ->
     Index.isIgnored h (Index.filename file) rules = false) ->
  forall events relevantCode relevantDiffs,
  fold_left
    (fun acc file =>
       let '(events, (relevantCode, relevantDiffs)) := acc in
       let '(events', lists) :=
         Index.processFile h file rules relevantCode relevantDiffs in
       (events ++ events', lists))
    order (events, (relevantCode, relevantDiffs))
  = (events ++ flat_map (logOf h) order,
     (relevantCode ++ flat_map (blocksOf h) order,
      relevantDiffs ++ map entryOf order)).
Proof.
  induction order as [|file order IH]; intros K events code diffs; simpl.
  - now rewrite !app_nil_r.
  - rewrite processFile_kept by (apply K; now left).
    rewrite IH by (intros f F; apply K; now right).
    now rewrite <- !app_assoc.
Qed.

(** The aggregation: the surviving files in the order their fetches settle,
    each with its log lines, its content blocks and its status entry. *)
Lemma processFiles_spec h files rules :
  exists order,
    Permutation order (survivors h files rules)
    /\ Index.processFiles h files rules
       = (flat_map (logOf h) order,
          (flat_map (blocksOf h) order, map entryOf order)).
Proof.
  exists (settle_order (length (survivors h files rules)) (settles h)
                       (survivors h files rules)).
  split; [apply settle_order_Permutation|].
  unfold Index.processFiles. fold (survivors h files rules).
  rewrite resume_all; [reflexivity|].
  intros file F. apply survivors_kept with (files := files).
  eapply Permutation_in; [apply settle_order_Permutation | exact F].
Qed.

Lemma survivors_idem h files rules :
  survivors h (survivors h files rules) rules = survivors h files rules.
Proof.
  unfold survivors. induction files as [|f files IH]; simpl; [reflexivity|].
  destruct (negb (Index.isIgnored h (Index.filename f) rules)) eqn:E; simpl.
  - rewrite E, IH. reflexivity.
  - exact IH.
Qed.

Lemma processFiles_survivors h files rules :
  Index.processFiles h (survivors h files rules) rules
  = Index.processFiles h files rules.
Proof.
  unfold Index.processFiles. fold (survivors h files rules).
  fold (survivors h (survivors h files rules) rules).
  now rewrite survivors_idem.
Qed.

Lemma logOf_is_log h file e :
  In e (logOf h file) ->
  is_agent_call e = false /\ is_report e = false /\ is_failure e = false.
Proof.
  unfold logOf, Index.afterFetch.
  destruct (repos_getContent h (Index.filename file) None) as [[item| |]|];
    simpl; try tauto.
  - destruct (eqb (type item) (js "file")); simpl; [|tauto].
    intros [<-|[]]; auto.
  - intros [<-|[]]; auto.
Qed.

Lemma processFiles_log h files rules e :
  In e (fst (Index.processFiles h files rules)) ->
  is_agent_call e = false /\ is_report e = false /\ is_failure e = false.
Proof.
  destruct (processFiles_spec h files rules) as (order & _ & ->). simpl.
  rewrite in_flat_map. intros (file & _ & H). eapply logOf_is_log, H.
Qed.

(* ===================================================================== *)
(** ** Runs *)
(* ===================================================================== *)

Lemma bind_normal {A B} (m : Run A) (k : A -> Run B) t a :
  m = (t, Normal a) -> bind m k = (t ++ fst (k a), snd (k a)).
Proof. now intros ->. Qed.

Lemma bind_emit {B} (e : Event) (k : unit -> Run B) :
  bind (emit e) k = (e :: fst (k tt), snd (k tt)).
Proof. reflexivity. Qed.

Lemma bind_emits {B} (events : list Event) (k : unit -> Run B) :
  bind (emits events) k = (events ++ fst (k tt), snd (k tt)).
Proof. reflexivity. Qed.

Lemma bind_when {B} (c : bool) (e : Event) (k : unit -> Run B) :
  bind (when c (emit e)) k
  = ((if c then [e] else []) ++ fst (k tt), snd (k tt)).
Proof. destruct c; reflexivity. Qed.

(** Destructs the tests a run branches on, one at a time. *)
Ltac branch :=
  match goal with
  | |- context [match ?x with _ => _ end] =>
      lazymatch x with
      | context [match _ with _ => _ end] => fail
      | _ => destruct x eqn:?
      end
  | H : context [match ?x with _ => _ end] |- _ =>
      lazymatch x with
      | context [match _ with _ => _ end] => fail
      | _ => destruct x eqn:?
      end
  end.

Lemma repositoryFiles_silent h t c :
  Index.repositoryFiles h = (t, c) -> t = [] /\ c <> Return.
Proof.
  unfold Index.repositoryFiles, await, bind, ret, throw.
  repeat (branch; simpl in * ); intros E; injection E as <- <-;
    split; try reflexivity; discriminate.
Qed.

(** The trigger either fails on an unsupported event, or logs one line and
    lists the repository. *)
Lemma trigger_normal h t sessionId changedFiles :
  Index.trigger h = (t, Normal (sessionId, changedFiles)) ->
  Forall (fun e => is_info e = true) t
  /\ Index.repositoryFiles h = ([], Normal changedFiles)
  /\ ((context_eventName h = js "workflow_dispatch"
       /\ sessionId = js "workflow-" ++ numberText (context_runId h))
      \/ (context_eventName h = js "schedule"
          /\ sessionId
             = js "schedule-"
               ++ keepDigits (toISOString (new_Date h (Line 72))))).
Proof.
  unfold Index.trigger.
  destruct (eqb (context_eventName h) (js "workflow_dispatch")) eqn:D;
    [|destruct (eqb (context_eventName h) (js "schedule")) eqn:S].
  - apply eqb_eq in D. rewrite bind_emit.
    destruct (Index.repositoryFiles h) as [t' c] eqn:R.
    destruct (repositoryFiles_silent _ _ _ R) as [-> _].
    destruct c; simpl; intros E; try discriminate.
    injection E as <- <- <-. repeat split; auto.
  - apply eqb_eq in S. rewrite bind_emit.
    destruct (Index.repositoryFiles h) as [t' c] eqn:R.
    destruct (repositoryFiles_silent _ _ _ R) as [-> _].
    destruct c; simpl; intros E; try discriminate.
    injection E as <- <- <-. repeat split; auto.
  - simpl. discriminate.
Qed.

Lemma trigger_log h t c e :
  Index.trigger h = (t, c) -> In e t ->
  is_agent_call e = false /\ is_report e = false
  /\ (is_failure e = true -> c = Return).
Proof.
  unfold Index.trigger.
  destruct (eqb (context_eventName h) (js "workflow_dispatch")) eqn:D;
    [|destruct (eqb (context_eventName h) (js "schedule")) eqn:S];
    try rewrite bind_emit;
    try (destruct (Index.repositoryFiles h) as [t' c'] eqn:R;
         destruct (repositoryFiles_silent _ _ _ R) as [-> _];
         destruct c');
    simpl; intros E; injection E as <- <-;
    (intros [<-|[]]; simpl; repeat split; auto; discriminate).
Qed.

Lemma loadGitignore_normal h t rules :
  Index.loadGitignore h = (t, Normal rules) ->
  Forall (fun e => is_info e = true) t /\ rules = Index.gitignorePatterns h.
Proof.
  unfold Index.loadGitignore, Index.gitignorePatterns.
  destruct (GITHUB_WORKSPACE h); [|discriminate].
  destruct (gitignore h); [destruct (Index.debug h)|]; simpl;
    intros E; injection E as <- <-; repeat constructor.
Qed.

Lemma loadGitignore_log h t c e :
  Index.loadGitignore h = (t, c) -> In e t -> is_info e = true.
Proof.
  unfold Index.loadGitignore.
  destruct (GITHUB_WORKSPACE h); [|intros E; injection E as <- <-; intros []].
  destruct (gitignore h); [destruct (Index.debug h)|]; simpl;
    intros E; injection E as <- <-; simpl; intuition (subst; auto).
Qed.

Lemma loadGitignore_no_return h t : Index.loadGitignore h <> (t, Return).
Proof.
  unfold Index.loadGitignore.
  destruct (GITHUB_WORKSPACE h); [|discriminate].
  destruct (gitignore h); [destruct (Index.debug h)|]; simpl; discriminate.
Qed.

Lemma prelude_missing h :
  missing (GITHUB_TOKEN h) || missing (GITHUB_REPOSITORY h) = true ->
  Index.prelude h
  = ([core_info (stamped h (Line 14) (js "Starting GitHub Action"));
      core_setFailed
        (js "Error: Missing required environment variables: GITHUB_TOKEN, GITHUB_REPOSITORY.")],
     Return).
Proof. unfold Index.prelude. intros ->. reflexivity. Qed.

Lemma prelude_not_boolean h :
  missing (GITHUB_TOKEN h) || missing (GITHUB_REPOSITORY h) = false ->
  parseBoolean (input_debug h) = None ->
  Index.prelude h
  = ([core_info (stamped h (Line 14) (js "Starting GitHub Action"))],
     Throw (notBoolean (js "debug"))).
Proof.
  unfold Index.prelude, getBooleanInput. intros -> ->. reflexivity.
Qed.

Lemma prelude_unsupported h :
  missing (GITHUB_TOKEN h) || missing (GITHUB_REPOSITORY h) = false ->
  parseBoolean (input_debug h) <> None ->
  context_eventName h <> js "workflow_dispatch" ->
  context_eventName h <> js "schedule" ->
  Index.prelude h
  = ([core_info (stamped h (Line 14) (js "Starting GitHub Action"));
      core_setFailed
        (js "Unsupported event type: " ++ context_eventName h
         ++ js ". This action only supports workflow_dispatch and schedule events.")],
     Return).
Proof.
  unfold Index.prelude, Index.trigger, getBooleanInput. intros -> B D S.
  destruct (parseBoolean (input_debug h)); [|contradiction].
  apply eqb_neq in D, S. rewrite D, S. reflexivity.
Qed.

Lemma prelude_normal h t sessionId changedFiles rules :
  Index.prelude h = (t, Normal (sessionId, changedFiles, rules)) ->
  Forall (fun e => is_info e = true) t
  /\ missing (GITHUB_TOKEN h) || missing (GITHUB_REPOSITORY h) = false
  /\ (exists t', Index.trigger h = (t', Normal (sessionId, changedFiles)))
  /\ rules = Index.allIgnorePatterns h.
Proof.
  unfold Index.prelude. rewrite bind_emit.
  destruct (missing (GITHUB_TOKEN h) || missing (GITHUB_REPOSITORY h));
    [discriminate|].
  unfold getBooleanInput.
  destruct (parseBoolean (input_debug h)) as [b|];
    cbn [bind ret throw fst snd app]; [|discriminate].
  destruct (Index.trigger h) as [t1 [[sid files]| |]] eqn:T; simpl;
    try discriminate.
  destruct (Index.loadGitignore h) as [t2 [rules'| |]] eqn:L; simpl;
    try discriminate.
  intros E; injection E as <- <- <- <-.
  destruct (trigger_normal _ _ _ _ T) as (I1 & _).
  destruct (loadGitignore_normal _ _ _ L) as (I2 & ->).
  repeat split; eauto.
  constructor; [reflexivity|]. apply Forall_app; split; [exact I1|].
  constructor; [reflexivity|]. rewrite app_nil_r. exact I2.
Qed.

Lemma prelude_log h t c e :
  Index.prelude h = (t, c) -> In e t ->
  is_agent_call e = false /\ is_report e = false
  /\ (is_failure e = true -> c = Return).
Proof.
  unfold Index.prelude. rewrite bind_emit.
  destruct (missing (GITHUB_TOKEN h) || missing (GITHUB_REPOSITORY h)).
  { simpl. intros E; injection E as <- <-.
    intros [<-|[<-|[]]]; simpl; repeat split; auto; discriminate. }
  unfold getBooleanInput.
  destruct (parseBoolean (input_debug h)) as [b|];
    cbn [bind ret throw fst snd app].
  2:{ intros E; injection E as <- <-.
      intros [<-|[]]; simpl; repeat split; auto; discriminate. }
  destruct (Index.trigger h) as [t1 c1] eqn:T.
  assert (K : forall e, In e t1 ->
            is_agent_call e = false /\ is_report e = false
            /\ (is_failure e = true -> c1 = Return))
    by (intros e'; apply (trigger_log _ _ _ _ T)).
  destruct c1 as [[sid files]| |]; simpl.
  - destruct (Index.loadGitignore h) as [t2 c2] eqn:L.
    assert (K2 : forall e, In e t2 -> is_info e = true)
      by (intros e'; apply (loadGitignore_log _ _ _ _ L)).
    assert (fst (bind (Index.loadGitignore h)
                   (fun rules => ret (sid, files, Index.ignorePatterns h ++ rules)))
            = t2) as F.
    { rewrite L. destruct c2; simpl; rewrite ?app_nil_r; reflexivity. }
    rewrite <- L, F. intros E; injection E as <- _.
    intros [<-|H]; [simpl; repeat split; auto; discriminate|].
    apply in_app_or in H as [H|[<-|H]].
    + destruct (K _ H) as (? & ? & G). repeat split; auto.
      intros X; specialize (G X); discriminate.
    + simpl; repeat split; auto; discriminate.
    + apply K2 in H. destruct e; try discriminate. repeat split; auto.
      discriminate.
  - intros E; injection E as <- <-.
    intros [<-|H]; [simpl; repeat split; auto; discriminate|].
    rewrite ?app_nil_r in H. destruct (K _ H) as (? & ? & _). auto.
  - intros E; injection E as <- <-.
    intros [<-|H]; [simpl; repeat split; auto; discriminate|].
    rewrite ?app_nil_r in H. destruct (K _ H) as (? & ? & G).
    repeat split; auto. intros X; specialize (G X); discriminate.
Qed.

(** Opens [analyse] on the result of the aggregation, the test of line 126,
    the debug flag and the agent's answer. *)
Ltac open_analyse h sessionId files rules :=
  unfold Index.analyse, nothingToAnalyse;
  destruct (Index.processFiles h files rules) as [events [code diffs]];
  rewrite bind_emits; cbn [fst snd];
  destruct ((length diffs =? 0)%nat && (length code =? 0)%nat) eqn:?;
  [ | rewrite bind_when, bind_emit, bind_emit;
      destruct (invokeAgent h (Index.agentId h) (Index.agentAliasId h)
                  sessionId
                  (Index.prompt code diffs (Index.actionPrompt h))
                  (Index.memoryId h)) eqn:?;
      destruct (Index.debug h) eqn:? ];
  cbn [fst snd bind await ret throw emit when app].

Lemma analyse_nothing h sessionId files rules :
  nothingToAnalyse (snd (Index.processFiles h files rules)) = true ->
  Index.analyse h sessionId files rules
  = (fst (Index.processFiles h files rules)
     ++ [core_warning (stamped h (Line 127)
           (js "No relevant files or diffs found for analysis."))],
     Return).
Proof.
  open_analyse h sessionId files rules; intros E;
    try reflexivity; discriminate.
Qed.

Lemma analyse_calls_agent h sessionId files rules :
  nothingToAnalyse (snd (Index.processFiles h files rules)) = false ->
  In (agentCall h sessionId
        (fst (snd (Index.processFiles h files rules)))
        (snd (snd (Index.processFiles h files rules))))
     (fst (Index.analyse h sessionId files rules)).
Proof.
  unfold agentCall.
  open_analyse h sessionId files rules; intros E; try discriminate;
    apply in_or_app; right; simpl; auto.
Qed.

Lemma analyse_agent_call h sessionId files rules e :
  In e (fst (Index.analyse h sessionId files rules)) ->
  is_agent_call e = true ->
  e = agentCall h sessionId
        (fst (snd (Index.processFiles h files rules)))
        (snd (snd (Index.processFiles h files rules))).
Proof.
  unfold agentCall.
  pose proof (processFiles_log h files rules) as K.
  revert K.
  open_analyse h sessionId files rules; intros K H C;
    apply in_app_or in H as [H|H];
    try (destruct (K _ H) as (X & _); congruence);
    simpl in H; intuition (subst; try discriminate; auto).
Qed.

Lemma analyse_no_failure h sessionId files rules e :
  In e (fst (Index.analyse h sessionId files rules)) -> is_failure e = false.
Proof.
  pose proof (processFiles_log h files rules) as K.
  revert K.
  open_analyse h sessionId files rules; intros K H;
    apply in_app_or in H as [H|H];
    try (destruct (K _ H) as (_ & _ & X); congruence);
    simpl in H; intuition (subst; auto).
Qed.

Lemma analyse_no_throw_when_nothing h sessionId files rules :
  nothingToAnalyse (snd (Index.processFiles h files rules)) = true ->
  forall e, In e (fst (Index.analyse h sessionId files rules)) ->
    is_agent_call e = false /\ is_report e = false /\ is_failure e = false.
Proof.
  intros N e. rewrite (analyse_nothing _ _ _ _ N). cbn [fst].
  intros H. apply in_app_or in H as [H|[<-|[]]]; auto.
  apply (processFiles_log _ _ _ _ H).
Qed.

(** The three ways a run of index.js goes on after the setup. *)
Lemma main_after_prelude h t sessionId changedFiles rules :
  Index.prelude h = (t, Normal (sessionId, changedFiles, rules)) ->
  Index.main h
  = t ++ fst (Index.analyse h sessionId changedFiles rules)
    ++ match snd (Index.analyse h sessionId changedFiles rules) with
       | Throw message =>
           [core_setFailed (stamped h (Line 161) (js "Error: " ++ message))]
       | _ => []
       end.
Proof.
  unfold Index.main. intros ->. cbn [bind].
  destruct (Index.analyse h sessionId changedFiles rules) as [t' [[]| |]];
    cbn [fst snd try_catch]; rewrite ?app_nil_r, <- ?app_assoc; reflexivity.
Qed.

Lemma main_returned h t :
  Index.prelude h = (t, Return) -> Index.main h = t.
Proof. unfold Index.main. now intros ->. Qed.

Lemma main_thrown h t message :
  Index.prelude h = (t, Throw message) ->
  Index.main h
  = t ++ [core_setFailed (stamped h (Line 161) (js "Error: " ++ message))].
Proof. unfold Index.main. now intros ->. Qed.

Lemma filter_none {A} (f : A -> bool) (l : list A) :
  (forall x, In x l -> f x = false) -> filter f l = [].
Proof.
  induction l as [|x l IH]; intros K; [reflexivity|]. simpl.
  rewrite (K x (or_introl eq_refl)). apply IH. intros y I. apply K. now right.
Qed.

Lemma processFiles_quiet h files rules :
  filter is_agent_call (fst (Index.processFiles h files rules)) = []
  /\ filter is_report (fst (Index.processFiles h files rules)) = []
  /\ filter is_failure (fst (Index.processFiles h files rules)) = [].
Proof.
  repeat split; apply filter_none; intros e I;
    apply (processFiles_log _ _ _ _ I).
Qed.

(** What the analysis does once there is something to analyse: one agent
    invocation, then the report when the agent answers, or the exception of
    the agent. *)
Lemma analyse_outcome h sessionId files rules :
  nothingToAnalyse (snd (Index.processFiles h files rules)) = false ->
  filter is_agent_call (fst (Index.analyse h sessionId files rules))
  = [agentCall h sessionId
       (fst (snd (Index.processFiles h files rules)))
       (snd (snd (Index.processFiles h files rules)))]
  /\ filter is_failure (fst (Index.analyse h sessionId files rules)) = []
  /\ match invokeAgent h (Index.agentId h) (Index.agentAliasId h) sessionId
             (Index.prompt (fst (snd (Index.processFiles h files rules)))
                (snd (snd (Index.processFiles h files rules)))
                (Index.actionPrompt h))
             (Index.memoryId h) with
     | Resolved response =>
         snd (Index.analyse h sessionId files rules) = Normal tt
         /\ filter is_report (fst (Index.analyse h sessionId files rules))
            = [console_info
                 (Index.formatMarkdownAnalysis h response
                    (context_eventName h)
                    (length (fst (snd (Index.processFiles h files rules))))
                    (length (snd (snd (Index.processFiles h files rules))))
                    files)]
     | Rejected message =>
         snd (Index.analyse h sessionId files rules) = Throw message
         /\ filter is_report (fst (Index.analyse h sessionId files rules)) = []
     end.
Proof.
  unfold agentCall.
  pose proof (processFiles_quiet h files rules) as K. revert K.
  open_analyse h sessionId files rules; intros (K1 & K2 & K3) N;
    try discriminate; rewrite !filter_app, K1, K2, K3; repeat split.
Qed.

Lemma only_info_filters (t : list Event) :
  Forall (fun e => is_info e = true) t ->
  filter is_failure t = [] /\ filter is_agent_call t = []
  /\ filter is_report t = [].
Proof.
  induction 1 as [|e t E _ (F & A & R)]; [auto|].
  destruct e; try discriminate. simpl. auto.
Qed.

(** Every agent invocation of a run of index.js is the one of line 149. *)
Lemma main_agent_call h e :
  In e (Index.main h) -> is_agent_call e = true ->
  exists t sessionId changedFiles,
    Index.prelude h
    = (t, Normal (sessionId, changedFiles, Index.allIgnorePatterns h))
    /\ e = agentCall h sessionId
             (fst (snd (Index.processFiles h changedFiles
                          (Index.allIgnorePatterns h))))
             (snd (snd (Index.processFiles h changedFiles
                          (Index.allIgnorePatterns h)))).
Proof.
  destruct (Index.prelude h) as [t [[[sid files] rules]| |]] eqn:P.
  - destruct (prelude_normal _ _ _ _ _ P) as (_ & _ & _ & ->).
    rewrite (main_after_prelude _ _ _ _ _ P). intros H C.
    apply in_app_or in H as [H|H].
    { destruct (prelude_log _ _ _ _ P H) as (X & _). congruence. }
    apply in_app_or in H as [H|H].
    + exists t, sid, files. split; [reflexivity|].
      now apply analyse_agent_call.
    + destruct (snd (Index.analyse h sid files (Index.allIgnorePatterns h)));
        simpl in H; intuition (subst; discriminate).
  - rewrite (main_returned _ _ P). intros H C.
    destruct (prelude_log _ _ _ _ P H) as (X & _). congruence.
  - rewrite (main_thrown _ _ _ P). intros H C.
    apply in_app_or in H as [H|[<-|[]]]; [|discriminate].
    destruct (prelude_log _ _ _ _ P H) as (X & _). congruence.
Qed.

(** A run of the second entry point, event by event. *)
Lemma forwarded_run h :
  parseBoolean (input_debug h) <> None ->
  Part000.main h
  = [core_info (stamped h (Line 9) (js "Starting GitHub Action"))]
    ++ (if Part000.debug h
        then [core_info (stamped h (Line 22)
                (js "Using prompt: " ++ Part000.actionPrompt h));
              core_info (stamped h (Line 23)
                (js "Session ID: " ++ Part000.sessionId h))]
        else [])
    ++ [core_info (stamped h (Line 27) (js "Invoking Bedrock Agent"));
        agent_invokeAgent (Part000.agentId h) (Part000.agentAliasId h)
          (Part000.sessionId h) (Part000.actionPrompt h)
          (Part000.memoryId h)]
    ++ match invokeAgent h (Part000.agentId h) (Part000.agentAliasId h)
               (Part000.sessionId h) (Part000.actionPrompt h)
               (Part000.memoryId h) with
       | Resolved agentResponse =>
           [console_info (js "## Bedrock Agent Response" ++ nl ++ nl
                          ++ agentResponse);
            core_info (stamped h (Line 32)
              (js "Action completed successfully"))]
       | Rejected message =>
           [core_setFailed (stamped h (Line 35) (js "Error: " ++ message))]
       end.
Proof.
  unfold Part000.main, Part000.debug, getBooleanInput. intros B.
  destruct (parseBoolean (input_debug h)) as [[|]|]; [| |contradiction];
    destruct (invokeAgent h (Part000.agentId h) (Part000.agentAliasId h)
                (Part000.sessionId h) (Part000.actionPrompt h)
                (Part000.memoryId h));
    reflexivity.
Qed.

(** A debug input that is no boolean stops the second entry point at
    line 16. *)
Lemma forwarded_not_boolean h :
  parseBoolean (input_debug h) = None ->
  Part000.main h
  = [core_info (stamped h (Line 9) (js "Starting GitHub Action"));
     core_setFailed
       (stamped h (Line 35) (js "Error: " ++ notBoolean (js "debug")))].
Proof.
  unfold Part000.main, getBooleanInput. intros ->. reflexivity.
Qed.

Lemma forwarded_agent_call h e :
  In e (Part000.main h) -> is_agent_call e = true ->
  e = agent_invokeAgent (Part000.agentId h) (Part000.agentAliasId h)
        (Part000.sessionId h) (Part000.actionPrompt h) (Part000.memoryId h).
Proof.
  destruct (parseBoolean (input_debug h)) as [b|] eqn:B.
  - rewrite forwarded_run by congruence. intros H C.
    repeat (apply in_app_or in H as [H|H]).
    + destruct H as [<-|[]]; discriminate.
    + destruct (Part000.debug h); simpl in H;
        intuition (subst; discriminate).
    + simpl in H; intuition (subst; try discriminate; auto).
    + destruct (invokeAgent h _ _ _ _ _); simpl in H;
        intuition (subst; discriminate).
  - rewrite (forwarded_not_boolean _ B). simpl.
    intuition (subst; discriminate).
Qed.

Lemma forwarded_calls_agent h :
  parseBoolean (input_debug h) <> None ->
  In (agent_invokeAgent (Part000.agentId h) (Part000.agentAliasId h)
        (Part000.sessionId h) (Part000.actionPrompt h) (Part000.memoryId h))
     (Part000.main h).
Proof.
  intros B. rewrite (forwarded_run _ B).
  apply in_or_app; right. apply in_or_app; right.
  apply in_or_app; left. simpl; auto.
Qed.

(** *** Trimming *)

Lemma trimStart_empty (s : jsstring) :
  trimStart s = [] <-> forallb isWhiteSpace s = true.
Proof.
  induction s as [|c s IH]; simpl; [tauto|].
  destruct (isWhiteSpace c); simpl; [exact IH|]. split; discriminate.
Qed.

Lemma trimStart_suffix (s : jsstring) :
  exists blanks, s = blanks ++ trimStart s /\ forallb isWhiteSpace blanks = true.
Proof.
  induction s as [|c s (b & E & W)]; simpl.
  - now exists [].
  - destruct (isWhiteSpace c) eqn:C.
    + exists (c :: b). simpl. rewrite C, W. split; [congruence | reflexivity].
    + now exists [].
Qed.

Lemma forallb_rev {A} (f : A -> bool) (l : list A) :
  forallb f (rev l) = forallb f l.
Proof.
  induction l as [|x l IH]; simpl; [reflexivity|].
  rewrite forallb_app, IH. simpl. rewrite andb_true_r. apply andb_comm.
Qed.

(** A string trims to the empty string exactly when it holds white space
    only. *)
Lemma trim_empty (s : jsstring) :
  trim s = [] <-> forallb isWhiteSpace s = true.
Proof.
  unfold trim, trimEnd. split.
  - intros E. apply (f_equal (@rev N)) in E. rewrite rev_involutive in E.
    simpl in E. apply trimStart_empty in E. rewrite forallb_rev in E.
    destruct (trimStart_suffix s) as (b & S & W).
    rewrite S, forallb_app, W, E. reflexivity.
  - intros W. apply trimStart_empty in W. rewrite W. reflexivity.
Qed.

(* ===================================================================== *)
(** ** The models at work *)
(* ===================================================================== *)

Example split_commas :
  split 44 (js "a, b,,c") = [js "a"; js " b"; js ""; js "c"].
Proof. reflexivity. Qed.

Example trim_blanks : trim (js "  x y  ") = js "x y".
Proof. reflexivity. Qed.

Example toISOString_noon : toISOString noon = js "2024-05-17T12:00:30.250Z".
Proof. reflexivity. Qed.

Example sample_agent_call :
  filter is_agent_call (Index.main sample)
  = [agent_invokeAgent (js "AGENT") (js "ALIAS") (js "workflow-42")
       (js "Content of Affected Files:" ++ nl ++ js "Content of a.txt" ++ nl
        ++ js "```" ++ nl ++ js "hello" ++ nl ++ js "```" ++ nl ++ nl
        ++ js "Use the files above to provide context on the changes made."
        ++ nl ++ js "Changes:" ++ nl
        ++ js "File: a.txt (Status: analyzed)" ++ nl ++ nl
        ++ js "Review the repository.")
       None].
Proof. vm_compute. reflexivity. Qed.

Example sample_forwarded :
  filter is_agent_call (Part000.main sample)
  = [agent_invokeAgent (js "AGENT") (js "ALIAS") (js "session-1715947230250")
       (js "Review the repository.") None].
Proof. vm_compute. reflexivity. Qed.

(* ===================================================================== *)
(** ** The aggregation of files (C1) *)
(* ===================================================================== *)

(** C1. A file that no ignore pattern matches gets exactly one status entry
    "File: <path> (Status: <status>)\n" from processFile, whatever the fetch
    does; it gets a content block exactly when the fetch resolves to an item
    of type 'file'; a rejected fetch leaves the content blocks as they were.
    Over a whole run the status entries are, up to the order in which the
    fetches settle, those of the surviving files, one each, and the content
    blocks those of the surviving files whose fetch gave a file. *)
Theorem processFile_entry_and_block :
  forall (h : Host) (file : Index.FileRecord) (rules : list jsstring)
         (relevantCode relevantDiffs : list jsstring),
    Index.isIgnored h (Index.filename file) rules = false ->
    snd (snd (Index.processFile h file rules relevantCode relevantDiffs))
    = relevantDiffs
      ++ [js "File: " ++ Index.filename file ++ js " (Status: "
          ++ Index.status file ++ js ")" ++ nl]
    /\ (forall item,
          repos_getContent h (Index.filename file) None
          = Resolved (OneItem item) ->
          type item = js "file" ->
          fst (snd (Index.processFile h file rules relevantCode relevantDiffs))
          = relevantCode
            ++ [Index.contentBlock (Index.filename file)
                  (base64_utf8 h (content item))])
    /\ ((forall item,
           repos_getContent h (Index.filename file) None
           = Resolved (OneItem item) ->
           type item <> js "file") ->
        fst (snd (Index.processFile h file rules relevantCode relevantDiffs))
        = relevantCode)
    /\ (forall message,
          repos_getContent h (Index.filename file) None = Rejected message ->
          fst (snd (Index.processFile h file rules relevantCode relevantDiffs))
          = relevantCode)
    /\ (forall files,
          exists order,
            Permutation order (survivors h files rules)
            /\ snd (Index.processFiles h files rules)
               = (flat_map (blocksOf h) order, map entryOf order))
    /\ (forall files,
          length (snd (snd (Index.processFiles h files rules)))
          = length (survivors h files rules)).
Proof.
  intros h file rules code diffs K.
  rewrite (processFile_kept _ _ _ _ _ K). cbn [fst snd].
  unfold blocksOf. repeat split.
  - intros item -> T. rewrite T, eqb_refl. reflexivity.
  - intros N.
    destruct (repos_getContent h (Index.filename file) None)
      as [[item| |]|]; rewrite ?app_nil_r; try reflexivity.
    destruct (eqb (type item) (js "file")) eqn:E;
      rewrite ?app_nil_r; [|reflexivity].
    apply eqb_eq in E. now destruct (N item eq_refl).
  - intros message ->. now rewrite app_nil_r.
  - intros files. destruct (processFiles_spec h files rules) as (o & P & ->).
    now exists o.
  - intros files. destruct (processFiles_spec h files rules) as (o & P & ->).
    cbn [snd]. rewrite length_map. now apply Permutation_length.
Qed.

Lemma processFile_entry_and_block_sample :
  snd (snd (Index.processFile sample a_txt [js "b.log"] [] []))
  = [] ++ [js "File: " ++ js "a.txt" ++ js " (Status: " ++ js "analyzed"
           ++ js ")" ++ nl].
Proof.
  apply (processFile_entry_and_block sample a_txt [js "b.log"] [] []).
  reflexivity.
Defined.

(* ===================================================================== *)
(** ** The prompt (C2) *)
(* ===================================================================== *)

Lemma includes_behind_changes (x : jsstring) :
  includes (js "Content of Affected Files:") (js "Changes:" ++ nl ++ x)
  = includes (js "Content of Affected Files:") x.
Proof. reflexivity. Qed.

(** C2, as amended. With content blocks the prompt is the header, the
    blocks, the connecting sentence and the changes; without, it is the
    changes alone. The prompt begins with "Content of Affected Files:"
    exactly when there are content blocks, and contains it whenever there
    are; without content blocks it contains that text only where the status
    entries or the instruction bring it. *)
Theorem prompt_rendering :
  forall (contentBlocks statusEntries : list jsstring) (instruction : jsstring),
    (contentBlocks <> [] ->
     Index.prompt contentBlocks statusEntries instruction
     = js "Content of Affected Files:" ++ nl ++ concat contentBlocks ++ nl
       ++ js "Use the files above to provide context on the changes made."
       ++ nl ++ js "Changes:" ++ nl ++ concat statusEntries ++ nl
       ++ instruction)
    /\ (contentBlocks = [] ->
        Index.prompt contentBlocks statusEntries instruction
        = js "Changes:" ++ nl ++ concat statusEntries ++ nl ++ instruction)
    /\ (startsWith (js "Content of Affected Files:")
          (Index.prompt contentBlocks statusEntries instruction) = true
        <-> contentBlocks <> [])
    /\ (contentBlocks <> [] ->
        includes (js "Content of Affected Files:")
          (Index.prompt contentBlocks statusEntries instruction) = true)
    /\ (contentBlocks = [] ->
        includes (js "Content of Affected Files:")
          (Index.prompt contentBlocks statusEntries instruction)
        = includes (js "Content of Affected Files:")
            (concat statusEntries ++ nl ++ instruction)).
Proof.
  intros cbs ses instr. unfold Index.prompt, Index.diffsPrompt.
  rewrite !join_empty_concat.
  destruct cbs as [|b cbs]; cbn [length Nat.eqb negb];
    rewrite <- ?app_assoc.
  - split; [congruence|]. split; [reflexivity|].
    split; [split; [discriminate | congruence]|].
    split; [congruence|]. intros _. apply includes_behind_changes.
  - split; [reflexivity|]. split; [discriminate|].
    split; [split; [discriminate | intros _; apply startsWith_app]|].
    split; [|discriminate]. intros _. apply includes_here, startsWith_app.
Qed.

(** The claim as first stated fails: an instruction that quotes the header
    puts it in a prompt that has no content block. *)
Lemma prompt_header_without_blocks :
  ~ (forall (contentBlocks statusEntries : list jsstring)
            (instruction : jsstring),
       includes (js "Content of Affected Files:")
         (Index.prompt contentBlocks statusEntries instruction) = true
       <-> contentBlocks <> []).
Proof.
  intros H.
  destruct (H [] [entryOf a_txt] (js "Content of Affected Files:")) as [G _].
  now apply G.
Qed.

(* ===================================================================== *)
(** ** The pattern filter (C6) *)
(* ===================================================================== *)

Lemma isIgnored_same_rules h path rules rules' :
  (forall pattern, In pattern rules <-> In pattern rules') ->
  Index.isIgnored h path rules = Index.isIgnored h path rules'.
Proof.
  intros S. apply eq_true_iff_eq. rewrite !isIgnored_spec.
  split; intros (p & I & M); exists p; split; auto; now apply S.
Qed.

(** C6. A path is ignored exactly when minimatch matches it against some
    pattern of the rule set; so the decision is the same for a permuted rule
    set and for one with patterns repeated, and no path is ignored by the
    empty rule set. *)
Theorem isIgnored_any_pattern :
  forall (h : Host) (path : jsstring) (rules : list jsstring),
    (Index.isIgnored h path rules = true
     <-> exists pattern, In pattern rules /\ minimatch h path pattern = true)
    /\ (forall rules', Permutation rules rules' ->
          Index.isIgnored h path rules' = Index.isIgnored h path rules)
    /\ (forall pattern, In pattern rules ->
          Index.isIgnored h path (pattern :: rules)
          = Index.isIgnored h path rules)
    /\ Index.isIgnored h path (rules ++ rules) = Index.isIgnored h path rules
    /\ Index.isIgnored h path [] = false.
Proof.
  intros h path rules. repeat split.
  - apply isIgnored_spec.
  - apply isIgnored_spec.
  - intros rules' P. apply isIgnored_same_rules. intros p; split; intros I.
    + eapply Permutation_in; [symmetry; exact P | exact I].
    + eapply Permutation_in; [exact P | exact I].
  - intros pattern I. apply isIgnored_same_rules. intros p; simpl.
    split; [intros [<-|]; auto | auto].
  - apply isIgnored_same_rules. intros p. rewrite in_app_iff. tauto.
Qed.

Lemma isIgnored_any_pattern_sample :
  Index.isIgnored sample (js "b.log") [js "b.log"; js "a.md"]
  = Index.isIgnored sample (js "b.log") [js "a.md"; js "b.log"].
Proof.
  apply (proj1 (proj2 (isIgnored_any_pattern sample (js "b.log")
                         [js "a.md"; js "b.log"]))).
  apply perm_swap.
Defined.

(* ===================================================================== *)
(** ** The memory id (C10) *)
(* ===================================================================== *)

(** C10. In both entry points a memory_id that is empty or all white space
    is forwarded to the agent as undefined, never as the empty string, and
    any other memory_id is forwarded trimmed; every agent invocation of a
    run carries that value, and the runs that reach the agent (in the second
    entry point, those whose debug input is a boolean) do invoke it with
    it. *)
Theorem memory_id_forwarded :
  forall h : Host,
    (forallb isWhiteSpace (input_memory_id h) = true ->
     Index.memoryId h = None /\ Part000.memoryId h = None)
    /\ (forallb isWhiteSpace (input_memory_id h) = false ->
        Index.memoryId h = Some (trim (input_memory_id h))
        /\ Part000.memoryId h = Some (trim (input_memory_id h))
        /\ trim (input_memory_id h) <> [])
    /\ (forall a b s p m,
          In (agent_invokeAgent a b s p m) (Index.main h) ->
          m = Index.memoryId h)
    /\ (forall a b s p m,
          In (agent_invokeAgent a b s p m) (Part000.main h) ->
          m = Part000.memoryId h)
    /\ (parseBoolean (input_debug h) <> None ->
        In (agent_invokeAgent (Part000.agentId h) (Part000.agentAliasId h)
              (Part000.sessionId h) (Part000.actionPrompt h)
              (Part000.memoryId h))
           (Part000.main h))
    /\ (forall t sessionId changedFiles rules,
          Index.prelude h = (t, Normal (sessionId, changedFiles, rules)) ->
          nothingToAnalyse (snd (Index.processFiles h changedFiles rules))
          = false ->
          exists prompt,
            In (agent_invokeAgent (Index.agentId h) (Index.agentAliasId h)
                  sessionId prompt (Index.memoryId h))
               (Index.main h)).
Proof.
  intros h. unfold Index.memoryId, Part000.memoryId.
  split; [|split; [|split; [|split; [|split]]]].
  - intros W. apply trim_empty in W. rewrite W. auto.
  - intros W. destruct (trim (input_memory_id h)) as [|c s] eqn:T.
    + apply trim_empty in T. congruence.
    + simpl. repeat split; discriminate.
  - intros a b s p m H.
    destruct (main_agent_call _ _ H eq_refl) as (t & sid & files & _ & E).
    unfold agentCall in E. now injection E.
  - intros a b s p m H. pose proof (forwarded_agent_call _ _ H eq_refl) as E.
    now injection E.
  - apply forwarded_calls_agent.
  - intros t sid files rules P N. eexists.
    rewrite (main_after_prelude _ _ _ _ _ P).
    apply in_or_app; right. apply in_or_app; left.
    apply (analyse_calls_agent _ _ _ _ N).
Qed.

Lemma memory_id_forwarded_sample :
  Index.memoryId sample = None /\ Part000.memoryId sample = None.
Proof.
  apply (proj1 (memory_id_forwarded sample)). reflexivity.
Defined.

(* ===================================================================== *)
(** ** Nothing to analyse (C8) *)
(* ===================================================================== *)

(** C8. When the setup succeeds and both lists come out of the aggregation
    empty, the run is the log lines of the setup followed by one warning:
    it signals no failure, invokes no agent and prints no report. *)
Theorem nothing_to_analyse :
  forall (h : Host) t sessionId changedFiles rules,
    Index.prelude h = (t, Normal (sessionId, changedFiles, rules)) ->
    snd (Index.processFiles h changedFiles rules) = ([], []) ->
    Index.main h
    = t ++ [core_warning (stamped h (Line 127)
              (js "No relevant files or diffs found for analysis."))]
    /\ Forall (fun e => is_info e = true) t
    /\ filter is_failure (Index.main h) = []
    /\ filter is_agent_call (Index.main h) = []
    /\ filter is_report (Index.main h) = [].
Proof.
  intros h t sid files rules P E.
  assert (N : nothingToAnalyse (snd (Index.processFiles h files rules)) = true)
    by (rewrite E; reflexivity).
  assert (F : fst (Index.processFiles h files rules) = []).
  { destruct (processFiles_spec h files rules) as (order & _ & S).
    rewrite S in E |- *. cbn [fst snd] in *.
    injection E as _ M. apply map_eq_nil in M. now subst order. }
  assert (M : Index.main h
              = t ++ [core_warning (stamped h (Line 127)
                        (js "No relevant files or diffs found for analysis."))]).
  { rewrite (main_after_prelude _ _ _ _ _ P), (analyse_nothing _ _ _ _ N), F.
    cbn [fst snd app]. reflexivity. }
  destruct (prelude_normal _ _ _ _ _ P) as (I & _).
  destruct (only_info_filters _ I) as (X & Y & Z).
  rewrite M, !filter_app, X, Y, Z. auto.
Qed.

Lemma nothing_to_analyse_sample :
  filter is_agent_call (Index.main sample_all_ignored) = []
  /\ filter is_report (Index.main sample_all_ignored) = [].
Proof.
  apply (nothing_to_analyse sample_all_ignored
           (fst (Index.prelude sample_all_ignored)) (js "workflow-42")
           [a_txt; b_log] [js "a.txt"; js "b.log"]).
  - vm_compute. reflexivity.
  - vm_compute. reflexivity.
Defined.

(* ===================================================================== *)
(** ** The instruction (C4) *)
(* ===================================================================== *)

(** C4, as amended. The instruction is not validated. Neither the setup
    nor the aggregation reads it, so a run whose instruction is empty after
    trimming goes through them as a run with any other instruction does.
    Whenever the setup succeeds and a file survives the filter, the agent is
    invoked with the prompt rendered from the trimmed instruction as it is,
    and the run signals no failure if the agent answers; rendered from an
    empty instruction, a prompt ends with the line break that precedes the
    instruction. The second entry point, once its debug input is read as a
    boolean, invokes the agent with the trimmed instruction, empty or not. *)
Theorem instruction_not_validated :
  forall h : Host,
    (forall instruction,
       Index.prelude (with_action_prompt instruction h) = Index.prelude h
       /\ forall files rules,
            Index.processFiles (with_action_prompt instruction h) files rules
            = Index.processFiles h files rules)
    /\ (forall t sessionId changedFiles rules,
          Index.prelude h = (t, Normal (sessionId, changedFiles, rules)) ->
          nothingToAnalyse (snd (Index.processFiles h changedFiles rules))
          = false ->
          In (agent_invokeAgent (Index.agentId h) (Index.agentAliasId h)
                sessionId
                (Index.prompt
                   (fst (snd (Index.processFiles h changedFiles rules)))
                   (snd (snd (Index.processFiles h changedFiles rules)))
                   (trim (input_action_prompt h)))
                (Index.memoryId h))
             (Index.main h)
          /\ (forall response,
                invokeAgent h (Index.agentId h) (Index.agentAliasId h)
                  sessionId
                  (Index.prompt
                     (fst (snd (Index.processFiles h changedFiles rules)))
                     (snd (snd (Index.processFiles h changedFiles rules)))
                     (trim (input_action_prompt h)))
                  (Index.memoryId h)
                = Resolved response ->
                filter is_failure (Index.main h) = []))
    /\ (forall relevantCode relevantDiffs,
          exists before,
            Index.prompt relevantCode relevantDiffs [] = before ++ nl)
    /\ (parseBoolean (input_debug h) <> None ->
        In (agent_invokeAgent (Part000.agentId h) (Part000.agentAliasId h)
              (Part000.sessionId h) (trim (input_action_prompt h))
              (Part000.memoryId h))
           (Part000.main h)).
Proof.
  intros h. split; [|split; [|split]].
  - intros instruction. split; reflexivity.
  - intros t sid files rules P N. split.
    + rewrite (main_after_prelude _ _ _ _ _ P).
      apply in_or_app; right. apply in_or_app; left.
      apply (analyse_calls_agent _ _ _ _ N).
    + intros response A.
      destruct (prelude_normal _ _ _ _ _ P) as (I & _).
      destruct (only_info_filters _ I) as (F1 & _).
      destruct (analyse_outcome h sid files rules N) as (_ & F & O).
      unfold Index.actionPrompt in O. rewrite A in O. destruct O as (S & _).
      rewrite (main_after_prelude _ _ _ _ _ P), S, app_nil_r, filter_app.
      now rewrite F1, F.
  - intros code diffs. unfold Index.prompt.
    destruct (negb (length code =? 0)%nat); eexists;
      rewrite app_nil_r, ?app_assoc; reflexivity.
  - apply forwarded_calls_agent.
Qed.

Lemma instruction_not_validated_sample :
  In (agent_invokeAgent (js "AGENT") (js "ALIAS") (js "workflow-42")
        (Index.prompt
           [Index.contentBlock (js "a.txt") (js "hello")] [entryOf a_txt] [])
        None)
     (Index.main sample_blank_instruction)
  /\ (forall response,
        invokeAgent sample_blank_instruction
          (Index.agentId sample_blank_instruction)
          (Index.agentAliasId sample_blank_instruction) (js "workflow-42")
          (Index.prompt
             (fst (snd (Index.processFiles sample_blank_instruction
                          [a_txt; b_log] [js "b.log"])))
             (snd (snd (Index.processFiles sample_blank_instruction
                          [a_txt; b_log] [js "b.log"])))
             (trim (input_action_prompt sample_blank_instruction)))
          (Index.memoryId sample_blank_instruction)
        = Resolved response ->
        filter is_failure (Index.main sample_blank_instruction) = []).
Proof.
  apply (proj1 (proj2 (instruction_not_validated sample_blank_instruction))
           (fst (Index.prelude sample_blank_instruction)) (js "workflow-42")
           [a_txt; b_log] [js "b.log"]).
  - vm_compute. reflexivity.
  - vm_compute. reflexivity.
Defined.

(** The claim as first stated fails: with a blank instruction the run of the
    sample repository invokes the agent and signals no failure. *)
Lemma blank_instruction_reaches_agent :
  trim (input_action_prompt sample_blank_instruction) = []
  /\ filter is_agent_call (Index.main sample_blank_instruction)
     = [agent_invokeAgent (js "AGENT") (js "ALIAS") (js "workflow-42")
          (js "Content of Affected Files:" ++ nl ++ js "Content of a.txt"
           ++ nl ++ js "```" ++ nl ++ js "hello" ++ nl ++ js "```" ++ nl ++ nl
           ++ js "Use the files above to provide context on the changes made."
           ++ nl ++ js "Changes:" ++ nl
           ++ js "File: a.txt (Status: analyzed)" ++ nl ++ nl)
          None]
  /\ filter is_failure (Index.main sample_blank_instruction) = [].
Proof. vm_compute. repeat split. Qed.

(* ===================================================================== *)
(** ** Ignored files (C3) *)
(* ===================================================================== *)

Lemma survivors_without h file rules before after :
  Index.isIgnored h (Index.filename file) rules = true ->
  survivors h (before ++ file :: after) rules
  = survivors h (before ++ after) rules.
Proof.
  intros I. unfold survivors. rewrite !filter_app. simpl. now rewrite I.
Qed.

Lemma processFiles_same_survivors h files files' rules :
  survivors h files rules = survivors h files' rules ->
  Index.processFiles h files rules = Index.processFiles h files' rules.
Proof.
  unfold Index.processFiles. fold (survivors h files rules).
  fold (survivors h files' rules). now intros ->.
Qed.

Lemma analyse_same_survivors h sessionId files files' rules :
  survivors h files rules = survivors h files' rules ->
  unreported (fst (Index.analyse h sessionId files rules))
  = unreported (fst (Index.analyse h sessionId files' rules))
  /\ snd (Index.analyse h sessionId files rules)
     = snd (Index.analyse h sessionId files' rules).
Proof.
  intros S. unfold Index.analyse.
  rewrite (processFiles_same_survivors _ _ _ _ S).
  destruct (Index.processFiles h files' rules) as [events [code diffs]].
  rewrite !bind_emits. cbn [fst snd].
  destruct ((length diffs =? 0)%nat && (length code =? 0)%nat);
    [split; reflexivity|].
  rewrite !bind_when, !bind_emit.
  destruct (invokeAgent h (Index.agentId h) (Index.agentAliasId h) sessionId
              (Index.prompt code diffs (Index.actionPrompt h))
              (Index.memoryId h));
    destruct (Index.debug h);
    cbn [fst snd bind await ret throw emit when app];
    unfold unreported; rewrite !filter_app; split; reflexivity.
Qed.

Lemma analyse_report h sessionId files rules e :
  In e (fst (Index.analyse h sessionId files rules)) ->
  is_report e = true ->
  exists response,
    e = console_info
          (Index.formatMarkdownAnalysis h response (context_eventName h)
             (length (fst (snd (Index.processFiles h files rules))))
             (length (snd (snd (Index.processFiles h files rules))))
             files).
Proof.
  pose proof (processFiles_log h files rules) as K.
  revert K.
  open_analyse h sessionId files rules; intros K H C;
    apply in_app_or in H as [H|H];
    try (destruct (K _ H) as (_ & X & _); congruence);
    simpl in H; intuition (subst; try discriminate; eauto).
Qed.

Lemma formatMarkdownAnalysis_lists h response eventType n m files file :
  In file files ->
  includes (js "- **" ++ Index.filename file ++ js "**: " ++ Index.status file)
    (Index.formatMarkdownAnalysis h response eventType n m files) = true.
Proof.
  intros I. unfold Index.formatMarkdownAnalysis. cbv zeta.
  do 16 apply includes_app_r. apply includes_app_l, includes_join.
  apply (in_map (fun f => js "- **" ++ Index.filename f ++ js "**: "
                          ++ Index.status f) _ _ I).
Qed.

(** C3, as amended. A file that an ignore pattern matches leaves processFile
    without a content block, a status entry or a log line, and a run with it
    aggregates, prompts and invokes the agent as the run without it does:
    the two differ in the printed report at most. The report is rendered
    from the whole file list, so it lists the ignored file too. *)
Theorem ignored_file_outputs :
  forall (h : Host) (file : Index.FileRecord) (rules : list jsstring),
    Index.isIgnored h (Index.filename file) rules = true ->
    (forall relevantCode relevantDiffs,
       Index.processFile h file rules relevantCode relevantDiffs
       = ([], (relevantCode, relevantDiffs)))
    /\ (forall before after,
          Index.processFiles h (before ++ file :: after) rules
          = Index.processFiles h (before ++ after) rules)
    /\ (forall sessionId before after,
          unreported
            (fst (Index.analyse h sessionId (before ++ file :: after) rules))
          = unreported
              (fst (Index.analyse h sessionId (before ++ after) rules))
          /\ snd (Index.analyse h sessionId (before ++ file :: after) rules)
             = snd (Index.analyse h sessionId (before ++ after) rules))
    /\ (forall sessionId files e,
          In e (fst (Index.analyse h sessionId files rules)) ->
          is_report e = true ->
          exists response,
            e = console_info
                  (Index.formatMarkdownAnalysis h response
                     (context_eventName h)
                     (length (fst (snd (Index.processFiles h files rules))))
                     (length (snd (snd (Index.processFiles h files rules))))
                     files))
    /\ (forall response eventType n m files,
          In file files ->
          includes
            (js "- **" ++ Index.filename file ++ js "**: "
             ++ Index.status file)
            (Index.formatMarkdownAnalysis h response eventType n m files)
          = true).
Proof.
  intros h file rules I. split; [|split; [|split; [|split]]].
  - intros code diffs. now apply processFile_ignored.
  - intros before after.
    apply processFiles_same_survivors, survivors_without, I.
  - intros sid before after.
    apply analyse_same_survivors, survivors_without, I.
  - intros sid files e. apply analyse_report.
  - intros. now apply formatMarkdownAnalysis_lists.
Qed.

Lemma ignored_file_outputs_sample :
  Index.processFiles sample ([a_txt] ++ b_log :: []) [js "b.log"]
  = Index.processFiles sample ([a_txt] ++ []) [js "b.log"].
Proof.
  apply (proj1 (proj2 (ignored_file_outputs sample b_log [js "b.log"]
                         eq_refl))).
Defined.

(** The claim as first stated fails: b.log is ignored in the sample run, and
    the report that run prints names it. *)
Lemma ignored_file_in_report :
  Index.isIgnored sample (js "b.log") (Index.allIgnorePatterns sample) = true
  /\ In (console_info
           (Index.formatMarkdownAnalysis sample (js "Looks fine.")
              (js "workflow_dispatch") 1 1 [a_txt; b_log]))
        (Index.main sample)
  /\ includes (js "b.log")
       (Index.formatMarkdownAnalysis sample (js "Looks fine.")
          (js "workflow_dispatch") 1 1 [a_txt; b_log]) = true.
Proof.
  split; [reflexivity|]. split; [|vm_compute; reflexivity].
  vm_compute. do 7 right. left. reflexivity.
Qed.

(* ===================================================================== *)
(** ** The merged rule set (C5) *)
(* ===================================================================== *)

Lemma filter_both {A} (f g : A -> bool) (l : list A) :
  filter (fun x => f x && g x) l = filter g (filter f l).
Proof.
  induction l as [|x l IH]; simpl; [reflexivity|].
  destruct (f x); simpl; [destruct (g x)|]; now rewrite IH.
Qed.

Lemma startsWith_hash (line : jsstring) :
  startsWith (js "#") line = PatternFilter.isComment line.
Proof.
  destruct line as [|c line]; [reflexivity|].
  change (js "#") with [35%N]. simpl.
  now rewrite andb_true_r, N.eqb_sym.
Qed.

Lemma ignorePatterns_callerRules h :
  Index.ignorePatterns h = PatternFilter.callerRules (input_ignore_patterns h).
Proof.
  unfold Index.ignorePatterns, PatternFilter.callerRules,
    PatternFilter.dropEmpty.
  apply filter_ext. intros s. apply Boolean_nonempty.
Qed.

Lemma gitignorePatterns_fileRules h :
  Index.gitignorePatterns h = PatternFilter.fileRules (gitignore h).
Proof.
  unfold Index.gitignorePatterns, PatternFilter.fileRules, Index.readPatterns,
    PatternFilter.dropEmpty.
  destruct (gitignore h) as [text|]; [|reflexivity].
  rewrite filter_both.
  rewrite (filter_ext Boolean (fun entry => negb (eqb entry []))
             Boolean_nonempty).
  apply filter_ext. intros line. now rewrite startsWith_hash.
Qed.

(** C5. The rule set that main hands to processFile is the caller's string
    split on commas, trimmed, without the empty entries, followed, when the
    ignore file exists, by its lines, trimmed, without the empty lines and
    the lines that start with '#'; nothing is removed or reordered beyond
    that, so the count is the sum of the two counts. *)
Theorem merged_rule_set :
  forall h : Host,
    Index.allIgnorePatterns h
    = PatternFilter.merge (input_ignore_patterns h) (gitignore h)
    /\ (forall t sessionId changedFiles rules,
          Index.prelude h = (t, Normal (sessionId, changedFiles, rules)) ->
          rules = PatternFilter.merge (input_ignore_patterns h) (gitignore h))
    /\ length (Index.allIgnorePatterns h)
       = length (PatternFilter.callerRules (input_ignore_patterns h))
         + length (PatternFilter.fileRules (gitignore h)).
Proof.
  intros h.
  assert (E : Index.allIgnorePatterns h
              = PatternFilter.merge (input_ignore_patterns h) (gitignore h)).
  { unfold Index.allIgnorePatterns, PatternFilter.merge.
    now rewrite ignorePatterns_callerRules, gitignorePatterns_fileRules. }
  repeat split.
  - exact E.
  - intros t sid files rules P.
    destruct (prelude_normal _ _ _ _ _ P) as (_ & _ & _ & ->). exact E.
  - rewrite E. apply length_app.
Qed.

Lemma merged_rule_set_sample :
  [js "b.log"] = PatternFilter.merge (input_ignore_patterns sample)
                   (gitignore sample).
Proof.
  apply (proj1 (proj2 (merged_rule_set sample))
           (fst (Index.prelude sample)) (js "workflow-42") [a_txt; b_log]).
  vm_compute. reflexivity.
Defined.

Example merge_of_the_specification :
  PatternFilter.merge (js "*.md")
    (Some (js "node_modules/" ++ nl ++ js "# comment" ++ nl ++ nl
           ++ js "dist/"))
  = [js "*.md"; js "node_modules/"; js "dist/"].
Proof. reflexivity. Qed.

Example merge_keeps_duplicates :
  PatternFilter.merge (js "dist/, dist/") (Some (js "dist/"))
  = [js "dist/"; js "dist/"; js "dist/"].
Proof. reflexivity. Qed.

(* ===================================================================== *)
(** ** Session ids (C7) *)
(* ===================================================================== *)












Example scheduled_session :
  filter is_agent_call (Index.main sample_scheduled)
  = [agent_invokeAgent (js "AGENT") (js "ALIAS")
       (js "schedule-20240517120030250")
       (Index.prompt
          [Index.contentBlock (js "a.txt") (js "hello")] [entryOf a_txt]
          (js "Review the repository."))
       (Some (js "memory-1"))].
Proof. vm_compute. reflexivity. Qed.

(* ===================================================================== *)
(** ** The debug flag (C9) *)
(* ===================================================================== *)

Lemma same_data_refl {A} (m : Run A) : same_data m m.
Proof. split; reflexivity. Qed.

Lemma same_data_bind {A B} (m1 m2 : Run A) (k1 k2 : A -> Run B) :
  same_data m1 m2 -> (forall a, same_data (k1 a) (k2 a)) ->
  same_data (bind m1 k1) (bind m2 k2).
Proof.
  destruct m1 as [t1 c1], m2 as [t2 c2]. unfold same_data. cbn [fst snd].
  intros [T <-] K. destruct c1 as [a| |]; cbn [bind fst snd]; auto.
  destruct (K a) as [K1 K2]. unfold produced in *.
  rewrite !filter_app. split; congruence.
Qed.

Lemma same_data_when (c1 c2 : bool) (message1 message2 : jsstring) :
  same_data (when c1 (emit (core_info message1)))
            (when c2 (emit (core_info message2))).
Proof. destruct c1, c2; split; reflexivity. Qed.

Lemma same_data_try_catch (m1 m2 : Run unit)
    (handler1 handler2 : jsstring -> list Event) :
  same_data m1 m2 ->
  (forall message, produced (handler1 message) = produced (handler2 message)) ->
  produced (try_catch m1 handler1) = produced (try_catch m2 handler2).
Proof.
  destruct m1 as [t1 c1], m2 as [t2 c2]. unfold same_data. cbn [fst snd].
  intros [T <-] K. destruct c1 as [a| |]; cbn [try_catch]; auto.
  unfold produced in *. rewrite !filter_app. now rewrite T, K.
Qed.

Lemma same_data_bind_ret {A B} (a1 a2 : A) (k1 k2 : A -> Run B) :
  same_data (k1 a1) (k2 a2) -> same_data (bind (ret a1) k1) (bind (ret a2) k2).
Proof. intros [T S]. split; assumption. Qed.

Lemma getBooleanInput_with_debug (b : bool) (h : Host) :
  getBooleanInput (js "debug") (input_debug (with_debug b h)) = ret b.
Proof. destruct b; reflexivity. Qed.

Lemma loadGitignore_debug (b1 b2 : bool) (h : Host) :
  same_data (Index.loadGitignore (with_debug b1 h))
            (Index.loadGitignore (with_debug b2 h)).
Proof.
  unfold Index.loadGitignore.
  change (GITHUB_WORKSPACE (with_debug b1 h)) with (GITHUB_WORKSPACE h).
  change (GITHUB_WORKSPACE (with_debug b2 h)) with (GITHUB_WORKSPACE h).
  change (gitignore (with_debug b1 h)) with (gitignore h).
  change (gitignore (with_debug b2 h)) with (gitignore h).
  destruct (GITHUB_WORKSPACE h); [|apply same_data_refl].
  destruct (gitignore h); [|apply same_data_refl].
  apply same_data_bind; [apply same_data_when|].
  intros _. apply same_data_refl.
Qed.

Lemma prelude_debug (b1 b2 : bool) (h : Host) :
  same_data (Index.prelude (with_debug b1 h))
            (Index.prelude (with_debug b2 h)).
Proof.
  unfold Index.prelude.
  apply same_data_bind; [apply same_data_refl|]. intros _.
  change (missing (GITHUB_TOKEN (with_debug b1 h))
          || missing (GITHUB_REPOSITORY (with_debug b1 h)))
    with (missing (GITHUB_TOKEN h) || missing (GITHUB_REPOSITORY h)).
  change (missing (GITHUB_TOKEN (with_debug b2 h))
          || missing (GITHUB_REPOSITORY (with_debug b2 h)))
    with (missing (GITHUB_TOKEN h) || missing (GITHUB_REPOSITORY h)).
  destruct (missing (GITHUB_TOKEN h) || missing (GITHUB_REPOSITORY h));
    [apply same_data_refl|].
  rewrite !getBooleanInput_with_debug. apply same_data_bind_ret.
  change (Index.trigger (with_debug b1 h)) with (Index.trigger h).
  change (Index.trigger (with_debug b2 h)) with (Index.trigger h).
  apply same_data_bind; [apply same_data_refl|]. intros [sid files].
  apply same_data_bind; [apply same_data_refl|]. intros _.
  apply same_data_bind; [apply loadGitignore_debug|]. intros rules.
  apply same_data_refl.
Qed.

Lemma analyse_debug (b1 b2 : bool) (h : Host) sessionId files rules :
  same_data (Index.analyse (with_debug b1 h) sessionId files rules)
            (Index.analyse (with_debug b2 h) sessionId files rules).
Proof.
  unfold Index.analyse.
  change (Index.processFiles (with_debug b1 h) files rules)
    with (Index.processFiles h files rules).
  change (Index.processFiles (with_debug b2 h) files rules)
    with (Index.processFiles h files rules).
  destruct (Index.processFiles h files rules) as [events [code diffs]].
  apply same_data_bind; [apply same_data_refl|]. intros _.
  destruct ((length diffs =? 0)%nat && (length code =? 0)%nat);
    [apply same_data_refl|].
  apply same_data_bind; [apply same_data_when|]. intros _.
  apply same_data_bind; [apply same_data_refl|]. intros _.
  apply same_data_bind; [apply same_data_refl|]. intros _.
  apply same_data_bind; [apply same_data_refl|]. intros agentResponse.
  apply same_data_bind; [apply same_data_when|]. intros _.
  apply same_data_refl.
Qed.

Lemma main_debug (b1 b2 : bool) (h : Host) :
  produced (Index.main (with_debug b1 h))
  = produced (Index.main (with_debug b2 h)).
Proof.
  unfold Index.main. apply same_data_try_catch; [|reflexivity].
  apply same_data_bind; [apply prelude_debug|].
  intros [[sid files] rules]. apply analyse_debug.
Qed.

Lemma quiet_debug_lines (c : bool) (message1 message2 : jsstring) :
  produced (if c then [core_info message1; core_info message2] else []) = [].
Proof. destruct c; reflexivity. Qed.

Lemma forwarded_produced (b : bool) (h : Host) :
  produced (Part000.main (with_debug b h))
  = agent_invokeAgent (Part000.agentId h) (Part000.agentAliasId h)
      (Part000.sessionId h) (Part000.actionPrompt h) (Part000.memoryId h)
    :: match invokeAgent h (Part000.agentId h) (Part000.agentAliasId h)
               (Part000.sessionId h) (Part000.actionPrompt h)
               (Part000.memoryId h) with
       | Resolved agentResponse =>
           [console_info (js "## Bedrock Agent Response" ++ nl ++ nl
                          ++ agentResponse)]
       | Rejected message =>
           [core_setFailed (stamped h (Line 35) (js "Error: " ++ message))]
       end.
Proof.
  rewrite forwarded_run by (destruct b; discriminate).
  unfold produced. rewrite !filter_app.
  fold (produced (if Part000.debug (with_debug b h)
                  then [core_info (stamped (with_debug b h) (Line 22)
                          (js "Using prompt: "
                           ++ Part000.actionPrompt (with_debug b h)));
                        core_info (stamped (with_debug b h) (Line 23)
                          (js "Session ID: "
                           ++ Part000.sessionId (with_debug b h)))]
                  else [])).
  rewrite quiet_debug_lines.
  change (invokeAgent (with_debug b h)) with (invokeAgent h).
  destruct (invokeAgent h _ _ _ _ _); reflexivity.
Qed.

Lemma forwarded_debug (b1 b2 : bool) (h : Host) :
  produced (Part000.main (with_debug b1 h))
  = produced (Part000.main (with_debug b2 h)).
Proof. now rewrite !forwarded_produced. Qed.

Lemma filter_produced (f : Event -> bool) (t : list Event) :
  (forall e, f e = true -> is_info e = false) ->
  filter f t = filter f (produced t).
Proof.
  intros F. unfold produced. induction t as [|e t IH]; [reflexivity|].
  simpl. destruct (f e) eqn:X.
  - rewrite (F _ X). simpl. rewrite X. now f_equal.
  - destruct (negb (is_info e)); simpl; rewrite ?X; exact IH.
Qed.

(** C9. Two runs that differ in the debug input alone produce the same
    events apart from informational log lines: the same agent invocation,
    prompt and arguments, the same printed report, the same warnings,
    errors and failure; and that for both entry points. *)
Theorem debug_only_adds_log_lines :
  forall (h : Host) (b1 b2 : bool),
    produced (Index.main (with_debug b1 h))
    = produced (Index.main (with_debug b2 h))
    /\ filter is_agent_call (Index.main (with_debug b1 h))
       = filter is_agent_call (Index.main (with_debug b2 h))
    /\ filter is_report (Index.main (with_debug b1 h))
       = filter is_report (Index.main (with_debug b2 h))
    /\ produced (Part000.main (with_debug b1 h))
       = produced (Part000.main (with_debug b2 h)).
Proof.
  intros h b1 b2.
  assert (P : produced (Index.main (with_debug b1 h))
              = produced (Index.main (with_debug b2 h)))
    by apply main_debug.
  repeat split.
  - exact P.
  - rewrite (filter_produced is_agent_call (Index.main (with_debug b1 h))),
      (filter_produced is_agent_call (Index.main (with_debug b2 h))), P;
      auto; intros []; simpl; congruence.
  - rewrite (filter_produced is_report (Index.main (with_debug b1 h))),
      (filter_produced is_report (Index.main (with_debug b2 h))), P;
      auto; intros []; simpl; congruence.
  - apply forwarded_debug.
Qed.

Example debug_run_logs_more :
  length (Index.main (with_debug true sample))
  = 2 + length (Index.main (with_debug false sample)).
Proof. vm_compute. reflexivity. Qed.

(* ===================================================================== *)
(** ** The enumeration of files, lines 50 to 68 and 77 to 95 *)
(* ===================================================================== *)




Lemma trigger_of_files h files :
  Index.repositoryFiles h = ([], Normal files) ->
  context_eventName h = js "workflow_dispatch"
  \/ context_eventName h = js "schedule" ->
  exists line sessionId,
    Index.trigger h = ([core_info line], Normal (sessionId, files)).
Proof.
  intros R E. unfold Index.trigger.
  destruct (eqb (context_eventName h) (js "workflow_dispatch")) eqn:D.
  - rewrite bind_emit, R. cbn [bind ret fst snd app]. eauto.
  - destruct E as [E|E]; [apply eqb_eq in E; congruence|].
    apply eqb_eq in E. rewrite E, bind_emit, R.
    cbn [bind ret fst snd app]. eauto.
Qed.

Lemma trigger_of_failure h message :
  Index.repositoryFiles h = ([], Throw message) ->
  context_eventName h = js "workflow_dispatch"
  \/ context_eventName h = js "schedule" ->
  exists line, Index.trigger h = ([core_info line], Throw message).
Proof.
  intros R E. unfold Index.trigger.
  destruct (eqb (context_eventName h) (js "workflow_dispatch")) eqn:D.
  - rewrite bind_emit, R. cbn [bind ret fst snd app]. eauto.
  - destruct E as [E|E]; [apply eqb_eq in E; congruence|].
    apply eqb_eq in E. rewrite E, bind_emit, R.
    cbn [bind ret fst snd app]. eauto.
Qed.

(** X2. When the repository lookup or the listing of the root is rejected,
    a run that came that far (environment set, debug input a boolean, event
    supported) is three events long: the start line, the line of the trigger
    and the failure signal that carries the message of the rejection; the
    agent is not invoked and nothing is printed. *)
Theorem enumeration_failure_is_fatal :
  forall (h : Host) (message : jsstring),
    missing (GITHUB_TOKEN h) || missing (GITHUB_REPOSITORY h) = false ->
    parseBoolean (input_debug h) <> None ->
    context_eventName h = js "workflow_dispatch"
    \/ context_eventName h = js "schedule" ->
    repos_get h = Rejected message
    \/ (exists branch,
          repos_get h = Resolved branch
          /\ repos_getContent h [] (Some branch) = Rejected message) ->
    exists line,
      Index.main h
      = [core_info (stamped h (Line 14) (js "Starting GitHub Action"));
         core_info line;
         core_setFailed (stamped h (Line 161) (js "Error: " ++ message))].
Proof.
  intros h message M B E F.
  assert (R : Index.repositoryFiles h = ([], Throw message)).
  { unfold Index.repositoryFiles.
    destruct F as [G|(branch & G & C)]; rewrite G; [reflexivity|].
    cbn [await bind ret fst snd app]. now rewrite C. }
  destruct (trigger_of_failure _ _ R E) as (line & T).
  exists line.
  rewrite (main_thrown h
             [core_info (stamped h (Line 14) (js "Starting GitHub Action"));
              core_info line] message); [reflexivity|].
  unfold Index.prelude, getBooleanInput. rewrite bind_emit, M, T.
  destruct (parseBoolean (input_debug h)); [reflexivity | contradiction].
Qed.

Lemma enumeration_failure_is_fatal_sample :
  exists line,
    Index.main sample_lookup_refused
    = [core_info (stamped sample_lookup_refused (Line 14)
                    (js "Starting GitHub Action"));
       core_info line;
       core_setFailed (stamped sample_lookup_refused (Line 161)
                         (js "Error: " ++ js "Bad credentials"))].
Proof.
  apply (enumeration_failure_is_fatal sample_lookup_refused
           (js "Bad credentials")).
  - reflexivity.
  - discriminate.
  - left. reflexivity.
  - left. reflexivity.
Defined.

(** X3. Without the GITHUB_WORKSPACE variable the path of .gitignore cannot
    be built: once the files are listed (environment set, debug input a
    boolean, event supported) the run logs their count and ends in the
    failure signal of that error, with no agent invocation and no report. *)
Theorem missing_workspace_is_fatal :
  forall (h : Host) files,
    missing (GITHUB_TOKEN h) || missing (GITHUB_REPOSITORY h) = false ->
    parseBoolean (input_debug h) <> None ->
    context_eventName h = js "workflow_dispatch"
    \/ context_eventName h = js "schedule" ->
    Index.repositoryFiles h = ([], Normal files) ->
    GITHUB_WORKSPACE h = None ->
    exists line,
      Index.main h
      = [core_info (stamped h (Line 14) (js "Starting GitHub Action"));
         core_info line;
         core_info (stamped h (Line 102)
           (js "Retrieved " ++ Number_toString (Z.of_nat (length files))
            ++ js " changed files"));
         core_setFailed (stamped h (Line 161)
           (js "Error: " ++ js "The " ++ dquote ++ js "path" ++ dquote
            ++ js " argument must be of type string. Received undefined"))].
Proof.
  intros h files M B E R W.
  destruct (trigger_of_files _ _ R E) as (line & sid & T).
  exists line.
  rewrite (main_thrown h
             [core_info (stamped h (Line 14) (js "Starting GitHub Action"));
              core_info line;
              core_info (stamped h (Line 102)
                (js "Retrieved " ++ Number_toString (Z.of_nat (length files))
                 ++ js " changed files"))]
             (js "The " ++ dquote ++ js "path" ++ dquote
              ++ js " argument must be of type string. Received undefined"));
    [reflexivity|].
  unfold Index.prelude, Index.loadGitignore, getBooleanInput.
  rewrite bind_emit, M, T, W.
  destruct (parseBoolean (input_debug h)); [reflexivity | contradiction].
Qed.

Lemma missing_workspace_is_fatal_sample :
  exists line,
    Index.main sample_no_workspace
    = [core_info (stamped sample_no_workspace (Line 14)
                    (js "Starting GitHub Action"));
       core_info line;
       core_info (stamped sample_no_workspace (Line 102)
         (js "Retrieved " ++ Number_toString (Z.of_nat (length [a_txt; b_log]))
          ++ js " changed files"));
       core_setFailed (stamped sample_no_workspace (Line 161)
         (js "Error: " ++ js "The " ++ dquote ++ js "path" ++ dquote
          ++ js " argument must be of type string. Received undefined"))].
Proof.
  apply (missing_workspace_is_fatal sample_no_workspace [a_txt; b_log]).
  - reflexivity.
  - discriminate.
  - left. reflexivity.
  - reflexivity.
  - reflexivity.
Defined.

(* ===================================================================== *)
(** ** How a run of index.js ends *)
(* ===================================================================== *)

Lemma only_info_tally (t : list Event) :
  Forall (fun e => is_info e = true) t -> tally t = (0, 0, 0).
Proof.
  intros I. destruct (only_info_filters _ I) as (F & A & R).
  unfold tally. now rewrite F, A, R.
Qed.

Lemma tally_app (a b : list Event) :
  tally (a ++ b)
  = (fst (fst (tally a)) + fst (fst (tally b)),
     snd (fst (tally a)) + snd (fst (tally b)),
     snd (tally a) + snd (tally b)).
Proof. unfold tally. rewrite !filter_app, !length_app. reflexivity. Qed.

Lemma trigger_shape h t c :
  Index.trigger h = (t, c) ->
  match c with
  | Return => exists message, t = [core_setFailed message]
  | _ => Forall (fun e => is_info e = true) t
  end.
Proof.
  unfold Index.trigger.
  destruct (eqb (context_eventName h) (js "workflow_dispatch"));
    [|destruct (eqb (context_eventName h) (js "schedule"))];
    try rewrite bind_emit;
    try (destruct (Index.repositoryFiles h) as [t' c'] eqn:R;
         destruct (repositoryFiles_silent _ _ _ R) as [-> NR];
         destruct c'; [| now destruct NR |]);
    cbn [bind emit return_ ret fst snd app]; intros E; injection E as <- <-;
    eauto; repeat constructor.
Qed.

(** The setup either returns early behind one failure signal, or logs
    informational lines only. *)
Lemma prelude_shape h t c :
  Index.prelude h = (t, c) ->
  match c with
  | Return =>
      exists t' message,
        t = t' ++ [core_setFailed message]
        /\ Forall (fun e => is_info e = true) t'
  | _ => Forall (fun e => is_info e = true) t
  end.
Proof.
  unfold Index.prelude. rewrite bind_emit.
  destruct (missing (GITHUB_TOKEN h) || missing (GITHUB_REPOSITORY h)).
  { cbn [bind emit return_ fst snd app]. intros E; injection E as <- <-.
    eexists [_], _. split; [reflexivity | repeat constructor]. }
  unfold getBooleanInput.
  destruct (parseBoolean (input_debug h)) as [b|];
    cbn [bind ret throw fst snd app].
  2:{ intros E; injection E as <- <-. repeat constructor. }
  destruct (Index.trigger h) as [t1 c1] eqn:T.
  pose proof (trigger_shape _ _ _ T) as S.
  destruct c1 as [[sid files]| |]; cbn [bind fst snd].
  - rewrite bind_emit.
    destruct (Index.loadGitignore h) as [t2 c2] eqn:L.
    assert (I2 : Forall (fun e => is_info e = true) t2).
    { apply Forall_forall. intros e. apply (loadGitignore_log _ _ _ _ L). }
    pose proof (loadGitignore_no_return h t2) as NR.
    destruct c2 as [rules| |]; cbn [bind ret fst snd app];
      intros E; injection E as <- <-; try congruence;
      rewrite ?app_nil_r;
      (constructor; [reflexivity|]); apply Forall_app; split; auto.
  - intros E; injection E as <- <-. destruct S as (m & ->).
    eexists [_], m. split; [reflexivity | repeat constructor].
  - intros E; injection E as <- <-. constructor; [reflexivity | exact S].
Qed.

(** X4. A run that passes the setup, keeps at least one file and gets an
    answer from the agent invokes the agent once, with the rendered prompt,
    prints one report, rendered from that answer, the two counts and the
    whole file list, and signals no failure, whatever the fetches of the
    files did. *)
Theorem answered_run :
  forall (h : Host) t sessionId changedFiles rules response,
    Index.prelude h = (t, Normal (sessionId, changedFiles, rules)) ->
    nothingToAnalyse (snd (Index.processFiles h changedFiles rules)) = false ->
    invokeAgent h (Index.agentId h) (Index.agentAliasId h) sessionId
      (Index.prompt (fst (snd (Index.processFiles h changedFiles rules)))
         (snd (snd (Index.processFiles h changedFiles rules)))
         (Index.actionPrompt h))
      (Index.memoryId h)
    = Resolved response ->
    filter is_agent_call (Index.main h)
    = [agentCall h sessionId
         (fst (snd (Index.processFiles h changedFiles rules)))
         (snd (snd (Index.processFiles h changedFiles rules)))]
    /\ filter is_report (Index.main h)
       = [console_info
            (Index.formatMarkdownAnalysis h response (context_eventName h)
               (length (fst (snd (Index.processFiles h changedFiles rules))))
               (length (snd (snd (Index.processFiles h changedFiles rules))))
               changedFiles)]
    /\ filter is_failure (Index.main h) = [].
Proof.
  intros h t sid files rules response P N A.
  destruct (prelude_normal _ _ _ _ _ P) as (I & _).
  destruct (only_info_filters _ I) as (F1 & F2 & F3).
  destruct (analyse_outcome h sid files rules N) as (C & F & O).
  rewrite A in O. destruct O as (S & R).
  rewrite (main_after_prelude _ _ _ _ _ P), S, app_nil_r, !filter_app.
  rewrite F1, F2, F3, C, R, F. auto.
Qed.

Lemma answered_run_sample :
  filter is_agent_call (Index.main sample)
  = [agentCall sample (js "workflow-42")
       (fst (snd (Index.processFiles sample [a_txt; b_log] [js "b.log"])))
       (snd (snd (Index.processFiles sample [a_txt; b_log] [js "b.log"])))]
  /\ filter is_report (Index.main sample)
     = [console_info
          (Index.formatMarkdownAnalysis sample (js "Looks fine.")
             (context_eventName sample)
             (length (fst (snd (Index.processFiles sample [a_txt; b_log]
                                  [js "b.log"]))))
             (length (snd (snd (Index.processFiles sample [a_txt; b_log]
                                  [js "b.log"]))))
             [a_txt; b_log])]
  /\ filter is_failure (Index.main sample) = [].
Proof.
  apply (answered_run sample (fst (Index.prelude sample)) (js "workflow-42")
           [a_txt; b_log] [js "b.log"] (js "Looks fine.")).
  - vm_compute. reflexivity.
  - vm_compute. reflexivity.
  - reflexivity.
Defined.

(** X5. When the agent invocation is rejected the run ends in one failure
    signal that carries the agent's message: the agent was invoked once and
    no report is printed. *)
Theorem agent_failure_is_fatal :
  forall (h : Host) t sessionId changedFiles rules message,
    Index.prelude h = (t, Normal (sessionId, changedFiles, rules)) ->
    nothingToAnalyse (snd (Index.processFiles h changedFiles rules)) = false ->
    invokeAgent h (Index.agentId h) (Index.agentAliasId h) sessionId
      (Index.prompt (fst (snd (Index.processFiles h changedFiles rules)))
         (snd (snd (Index.processFiles h changedFiles rules)))
         (Index.actionPrompt h))
      (Index.memoryId h)
    = Rejected message ->
    filter is_agent_call (Index.main h)
    = [agentCall h sessionId
         (fst (snd (Index.processFiles h changedFiles rules)))
         (snd (snd (Index.processFiles h changedFiles rules)))]
    /\ filter is_report (Index.main h) = []
    /\ filter is_failure (Index.main h)
       = [core_setFailed (stamped h (Line 161) (js "Error: " ++ message))]
    /\ exists before,
         Index.main h
         = before
           ++ [core_setFailed (stamped h (Line 161) (js "Error: " ++ message))].
Proof.
  intros h t sid files rules message P N A.
  destruct (prelude_normal _ _ _ _ _ P) as (I & _).
  destruct (only_info_filters _ I) as (F1 & F2 & F3).
  destruct (analyse_outcome h sid files rules N) as (C & F & O).
  rewrite A in O. destruct O as (S & R).
  rewrite (main_after_prelude _ _ _ _ _ P), S, !filter_app.
  rewrite F1, F2, F3, C, R, F. repeat split.
  eexists. rewrite app_assoc. reflexivity.
Qed.

Lemma agent_failure_is_fatal_sample :
  filter is_report (Index.main sample_agent_throttled) = [].
Proof.
  apply (agent_failure_is_fatal sample_agent_throttled
           (fst (Index.prelude sample_agent_throttled)) (js "workflow-42")
           [a_txt; b_log] [js "b.log"] (js "Rate exceeded")).
  - vm_compute. reflexivity.
  - vm_compute. reflexivity.
  - reflexivity.
Defined.

(** X6. Every run of index.js ends in one of four ways: nothing but log
    lines and at most a warning; one failure signal and no agent invocation;
    one agent invocation followed by one report; one agent invocation
    followed by one failure signal. So the agent is never invoked twice, a
    report is never printed without an agent invocation before it, and a run
    never both fails and prints a report. *)
Theorem run_endings :
  forall h : Host,
    tally (Index.main h) = (0, 0, 0)
    \/ tally (Index.main h) = (0, 1, 0)
    \/ tally (Index.main h) = (1, 0, 1)
    \/ tally (Index.main h) = (1, 1, 0).
Proof.
  intros h. destruct (Index.prelude h) as [t [[[sid files] rules]| |]] eqn:P.
  - destruct (prelude_normal _ _ _ _ _ P) as (I & _).
    rewrite (main_after_prelude _ _ _ _ _ P), tally_app, (only_info_tally _ I).
    cbn [fst snd Nat.add].
    destruct (nothingToAnalyse (snd (Index.processFiles h files rules))) eqn:N.
    + left. rewrite (analyse_nothing _ _ _ _ N). cbn [fst snd].
      rewrite app_nil_r. unfold tally. rewrite !filter_app.
      destruct (processFiles_quiet h files rules) as (-> & -> & ->).
      reflexivity.
    + destruct (analyse_outcome h sid files rules N) as (C & F & O).
      destruct (invokeAgent h _ _ _ _ _) as [response|message];
        destruct O as (S & R); rewrite S; unfold tally;
        rewrite !filter_app, C, R, F; auto.
  - pose proof (prelude_shape _ _ _ P) as (t' & m & -> & I). cbn beta iota.
    right; left. rewrite (main_returned _ _ P), tally_app, (only_info_tally _ I).
    reflexivity.
  - pose proof (prelude_shape _ _ _ P) as I. cbn beta iota in I.
    right; left. rewrite (main_thrown _ _ _ P), tally_app, (only_info_tally _ I).
    reflexivity.
Qed.

(* ===================================================================== *)
(** ** What the aggregation keeps *)
(* ===================================================================== *)

Lemma blocksOf_at_most_one h file : length (blocksOf h file) <= 1.
Proof.
  unfold blocksOf.
  destruct (repos_getContent h (Index.filename file) None) as [[item| |]|];
    simpl; try lia.
  destruct (eqb (type item) (js "file")); simpl; lia.
Qed.

Lemma flat_map_blocks_length h (order : list Index.FileRecord) :
  length (flat_map (blocksOf h) order) <= length order.
Proof.
  induction order as [|f order IH]; simpl; [lia|].
  rewrite length_app. pose proof (blocksOf_at_most_one h f). lia.
Qed.

(** X7. The two counts of the report: the content blocks are never more
    than the status entries, the status entries are as many as the files the
    filter lets through, and those are never more than the files listed. *)
Theorem analysed_counts :
  forall (h : Host) (files : list Index.FileRecord) (rules : list jsstring),
    length (fst (snd (Index.processFiles h files rules)))
    <= length (snd (snd (Index.processFiles h files rules)))
    /\ length (snd (snd (Index.processFiles h files rules)))
       = length (survivors h files rules)
    /\ length (survivors h files rules) <= length files.
Proof.
  intros h files rules.
  destruct (processFiles_spec h files rules) as (order & P & ->).
  cbn [fst snd]. rewrite length_map.
  pose proof (flat_map_blocks_length h order).
  pose proof (Permutation_length P).
  repeat split; try lia. apply filter_length_le.
Qed.

Lemma nothing_iff_no_survivors h files rules :
  nothingToAnalyse (snd (Index.processFiles h files rules)) = true
  <-> survivors h files rules = [].
Proof.
  destruct (processFiles_spec h files rules) as (order & P & ->).
  unfold nothingToAnalyse. cbn [fst snd]. split.
  - intros N. apply andb_true_iff in N as [N _]. apply Nat.eqb_eq in N.
    rewrite length_map in N. apply length_zero_iff_nil in N. subst order.
    now apply Permutation_nil in P.
  - intros S. rewrite S in P. apply Permutation_sym, Permutation_nil in P.
    now subst order.
Qed.

Lemma processFiles_kinds h files rules e :
  In e (fst (Index.processFiles h files rules)) ->
  is_info e = true \/ is_error e = true.
Proof.
  destruct (processFiles_spec h files rules) as (order & _ & ->). simpl.
  rewrite in_flat_map. intros (file & _ & H). revert H.
  unfold logOf, Index.afterFetch.
  destruct (repos_getContent h (Index.filename file) None) as [[item| |]|];
    simpl; try tauto.
  - destruct (eqb (type item) (js "file")); simpl; [|tauto].
    intros [<-|[]]; auto.
  - intros [<-|[]]; auto.
Qed.

Lemma analyse_no_warning h sessionId files rules message :
  nothingToAnalyse (snd (Index.processFiles h files rules)) = false ->
  ~ In (core_warning message) (fst (Index.analyse h sessionId files rules)).
Proof.
  pose proof (processFiles_kinds h files rules (core_warning message)) as K.
  revert K.
  open_analyse h sessionId files rules; intros K N W; try discriminate;
    apply in_app_or in W as [W|W];
    try (destruct (K W); discriminate);
    simpl in W; intuition discriminate.
Qed.

(** X8. After the setup the run takes the nothing-to-analyse exit exactly
    when the filter lets no file through. As soon as one file survives the
    agent is invoked and no warning is logged, even if the fetch of every
    file is rejected: rejected fetches cost content blocks, never the run. *)
Theorem warning_only_without_survivors :
  forall (h : Host) t sessionId changedFiles rules,
    Index.prelude h = (t, Normal (sessionId, changedFiles, rules)) ->
    (survivors h changedFiles rules = [] ->
     Index.main h
     = t ++ [core_warning (stamped h (Line 127)
               (js "No relevant files or diffs found for analysis."))])
    /\ (survivors h changedFiles rules <> [] ->
        In (agentCall h sessionId
              (fst (snd (Index.processFiles h changedFiles rules)))
              (snd (snd (Index.processFiles h changedFiles rules))))
           (Index.main h)
        /\ forall message,
             ~ In (core_warning message) (Index.main h)).
Proof.
  intros h t sid files rules P. split.
  - intros S. pose proof S as N. apply nothing_iff_no_survivors in N.
    destruct (processFiles_spec h files rules) as (order & Q & E).
    rewrite S in Q. apply Permutation_sym, Permutation_nil in Q. subst order.
    rewrite (main_after_prelude _ _ _ _ _ P), (analyse_nothing _ _ _ _ N), E.
    cbn [fst snd flat_map app]. reflexivity.
  - intros S.
    assert (N : nothingToAnalyse (snd (Index.processFiles h files rules))
                = false).
    { destruct (nothingToAnalyse (snd (Index.processFiles h files rules)))
        eqn:N; [|reflexivity].
      apply nothing_iff_no_survivors in N. contradiction. }
    rewrite (main_after_prelude _ _ _ _ _ P). split.
    + apply in_or_app; right. apply in_or_app; left.
      apply (analyse_calls_agent _ _ _ _ N).
    + intros message W.
      destruct (prelude_normal _ _ _ _ _ P) as (I & _).
      apply in_app_or in W as [W|W].
      { rewrite Forall_forall in I. specialize (I _ W). discriminate. }
      apply in_app_or in W as [W|W].
      * now apply (analyse_no_warning _ _ _ _ _ N) in W.
      * destruct (snd (Index.analyse h sid files rules)); simpl in W;
          intuition discriminate.
Qed.

Lemma warning_only_without_survivors_sample :
  Index.main sample_all_ignored
  = fst (Index.prelude sample_all_ignored)
    ++ [core_warning (stamped sample_all_ignored (Line 127)
          (js "No relevant files or diffs found for analysis."))].
Proof.
  apply (proj1 (warning_only_without_survivors sample_all_ignored
                  (fst (Index.prelude sample_all_ignored)) (js "workflow-42")
                  [a_txt; b_log] [js "a.txt"; js "b.log"] eq_refl)).
  reflexivity.
Defined.

Lemma Permutation_filter_length {A} (f : A -> bool) (l l' : list A) :
  Permutation l l' -> length (filter f l) = length (filter f l').
Proof.
  induction 1 as [|x l l' _ IH|x y l|l l' l'' _ IH1 _ IH2]; simpl.
  - reflexivity.
  - destruct (f x); simpl; now rewrite IH.
  - destruct (f x), (f y); reflexivity.
  - now rewrite IH1.
Qed.

Lemma logOf_counts h file :
  length (filter is_error (logOf h file))
  = (if fetchRejected h file then 1 else 0)
  /\ length (filter is_info (logOf h file)) = length (blocksOf h file).
Proof.
  unfold logOf, blocksOf, fetchRejected, Index.afterFetch.
  destruct (repos_getContent h (Index.filename file) None) as [[item| |]|];
    simpl; auto.
  destruct (eqb (type item) (js "file")); simpl; auto.
Qed.

Lemma flat_map_log_counts h (order : list Index.FileRecord) :
  length (filter is_error (flat_map (logOf h) order))
  = length (filter (fetchRejected h) order)
  /\ length (filter is_info (flat_map (logOf h) order))
     = length (flat_map (blocksOf h) order).
Proof.
  induction order as [|f order [IH1 IH2]]; simpl; [auto|].
  destruct (logOf_counts h f) as [E I].
  rewrite !filter_app, !length_app, IH1, IH2, E, I.
  destruct (fetchRejected h f); simpl; auto.
Qed.

(** X9. The aggregation logs errors and informational lines and nothing
    else: one error for each surviving file whose fetch is rejected, one
    line for each content block added. It raises no failure signal and
    throws nothing, so no single file aborts a run. *)
Theorem aggregation_log :
  forall (h : Host) (files : list Index.FileRecord) (rules : list jsstring),
    length (filter is_error (fst (Index.processFiles h files rules)))
    = length (filter (fetchRejected h) (survivors h files rules))
    /\ length (filter is_info (fst (Index.processFiles h files rules)))
       = length (fst (snd (Index.processFiles h files rules)))
    /\ (forall e, In e (fst (Index.processFiles h files rules)) ->
          is_info e = true \/ is_error e = true).
Proof.
  intros h files rules. split; [|split].
  - destruct (processFiles_spec h files rules) as (order & P & ->).
    cbn [fst snd]. destruct (flat_map_log_counts h order) as [-> _].
    now apply Permutation_filter_length.
  - destruct (processFiles_spec h files rules) as (order & P & ->).
    cbn [fst snd]. now destruct (flat_map_log_counts h order) as [_ ->].
  - intros e. apply processFiles_kinds.
Qed.

Example one_rejected_fetch :
  length (filter is_error
            (fst (Index.processFiles sample [a_txt; b_log; c_bin]
                    [js "b.log"]))) = 1
  /\ snd (Index.processFiles sample [a_txt; b_log; c_bin] [js "b.log"])
     = ([Index.contentBlock (js "a.txt") (js "hello")],
        [entryOf a_txt; entryOf c_bin]).
Proof. vm_compute. split; reflexivity. Qed.

(** X10. The prompt of a run names every file the filter lets through: it
    contains the status entry of each, and the content block of each one
    whose fetch gave a file, whatever the order in which the fetches
    settled. *)
Theorem prompt_names_survivors :
  forall (h : Host) (files : list Index.FileRecord) (rules : list jsstring)
         (instruction : jsstring) (file : Index.FileRecord),
    In file (survivors h files rules) ->
    includes (entryOf file)
      (Index.prompt (fst (snd (Index.processFiles h files rules)))
         (snd (snd (Index.processFiles h files rules))) instruction) = true
    /\ (forall block, In block (blocksOf h file) ->
          includes block
            (Index.prompt (fst (snd (Index.processFiles h files rules)))
               (snd (snd (Index.processFiles h files rules))) instruction)
          = true).
Proof.
  intros h files rules instruction file S.
  destruct (processFiles_spec h files rules) as (order & P & ->).
  cbn [fst snd].
  assert (O : In file order)
    by (eapply Permutation_in; [symmetry; exact P | exact S]).
  assert (D : includes (entryOf file)
                (Index.diffsPrompt (map entryOf order)) = true).
  { unfold Index.diffsPrompt. do 2 apply includes_app_r.
    apply includes_join. now apply in_map. }
  unfold Index.prompt. split.
  - destruct (negb (length (flat_map (blocksOf h) order) =? 0)%nat).
    + do 6 apply includes_app_r. now apply includes_app_l.
    + now apply includes_app_l.
  - intros block B.
    assert (C : In block (flat_map (blocksOf h) order))
      by (apply in_flat_map; now exists file).
    destruct (flat_map (blocksOf h) order) as [|b code] eqn:E;
      [contradiction|].
    cbn [length Nat.eqb negb].
    do 2 apply includes_app_r. apply includes_app_l.
    now apply includes_join.
Qed.

Lemma prompt_names_survivors_sample :
  includes (entryOf a_txt)
    (Index.prompt
       (fst (snd (Index.processFiles sample [a_txt; b_log] [js "b.log"])))
       (snd (snd (Index.processFiles sample [a_txt; b_log] [js "b.log"])))
       (js "Review the repository.")) = true.
Proof.
  refine (proj1 (prompt_names_survivors sample [a_txt; b_log] [js "b.log"]
                   (js "Review the repository.") a_txt _)).
  left. reflexivity.
Defined.

(* ===================================================================== *)
(** ** The shape of the ignore rules, lines 28 to 29 and 108 to 110 *)
(* ===================================================================== *)

Lemma trimStart_head (s : jsstring) c rest :
  trimStart s = c :: rest -> isWhiteSpace c = false.
Proof.
  induction s as [|d s IH]; simpl; [discriminate|].
  destruct (isWhiteSpace d) eqn:W; [exact IH|].
  intros E; injection E as <- _. exact W.
Qed.

Lemma trimStart_fixed (s : jsstring) :
  (forall c rest, s = c :: rest -> isWhiteSpace c = false) ->
  trimStart s = s.
Proof.
  destruct s as [|c s]; [reflexivity|]. intros K. simpl.
  now rewrite (K c s eq_refl).
Qed.

Lemma trimStart_idem (s : jsstring) : trimStart (trimStart s) = trimStart s.
Proof.
  apply trimStart_fixed. intros c rest E. eapply trimStart_head, E.
Qed.

Lemma trimEnd_prefix (s : jsstring) :
  exists blanks,
    s = trimEnd s ++ blanks /\ forallb isWhiteSpace blanks = true.
Proof.
  unfold trimEnd. destruct (trimStart_suffix (rev s)) as (b & E & W).
  exists (rev b). split.
  - rewrite <- rev_app_distr, <- E. now rewrite rev_involutive.
  - now rewrite forallb_rev.
Qed.

Lemma trimEnd_idem (s : jsstring) : trimEnd (trimEnd s) = trimEnd s.
Proof.
  unfold trimEnd. now rewrite rev_involutive, trimStart_idem.
Qed.

(** Trimming a trimmed string changes nothing. *)
Lemma trim_idem (s : jsstring) : trim (trim s) = trim s.
Proof.
  unfold trim.
  assert (F : trimStart (trimEnd (trimStart s)) = trimEnd (trimStart s)).
  { apply trimStart_fixed. intros c rest E.
    destruct (trimEnd_prefix (trimStart s)) as (b & P & _).
    rewrite E in P. simpl in P. eapply trimStart_head, P. }
  rewrite F. apply trimEnd_idem.
Qed.

Lemma trim_head (s : jsstring) c rest :
  trim s = c :: rest -> isWhiteSpace c = false.
Proof.
  unfold trim. intros E.
  destruct (trimEnd_prefix (trimStart s)) as (b & P & _).
  rewrite E in P. simpl in P. eapply trimStart_head, P.
Qed.

Lemma trim_last (s : jsstring) rest c :
  trim s = rest ++ [c] -> isWhiteSpace c = false.
Proof.
  unfold trim, trimEnd. intros E. apply (f_equal (@rev N)) in E.
  rewrite rev_involutive, rev_app_distr in E. simpl in E.
  eapply trimStart_head, E.
Qed.

Lemma trim_incl (s : jsstring) c : In c (trim s) -> In c s.
Proof.
  unfold trim. intros I.
  destruct (trimEnd_prefix (trimStart s)) as (b & P & _).
  destruct (trimStart_suffix s) as (a & Q & _).
  rewrite Q. apply in_or_app; right. rewrite P. apply in_or_app; now left.
Qed.

Lemma split_no_sep (sep : N) (s piece : jsstring) :
  In piece (split sep s) -> ~ In sep piece.
Proof.
  revert piece; induction s as [|c s IH]; intros piece; cbn [split].
  - intros [<-|[]] [].
  - destruct (N.eqb_spec c sep) as [->|D].
    + intros [<-|I]; [intros [] | now apply IH].
    + pose proof (split_nonempty sep s) as K.
      destruct (split sep s) as [|first rest]; [contradiction|].
      intros [<-|I].
      * intros [E|E]; [congruence|]. apply (IH first); [now left | exact E].
      * apply IH. now right.
Qed.

(** X11. No rule of the merged rule set is empty or has white space around
    it: trimming it again changes nothing, and neither its first nor its
    last code unit is white space. A rule of the caller holds no comma; a
    rule read from .gitignore holds no line feed and does not start with
    '#'. *)
Theorem rules_are_trimmed :
  forall (h : Host) (pattern : jsstring),
    In pattern (Index.allIgnorePatterns h) ->
    pattern <> []
    /\ trim pattern = pattern
    /\ (forall c rest, pattern = c :: rest -> isWhiteSpace c = false)
    /\ (forall rest c, pattern = rest ++ [c] -> isWhiteSpace c = false)
    /\ (In pattern (Index.ignorePatterns h) -> ~ In 44%N pattern)
    /\ (In pattern (Index.gitignorePatterns h) ->
        ~ In 10%N pattern /\ startsWith (js "#") pattern = false).
Proof.
  intros h pattern I.
  assert (T : pattern <> [] /\ exists raw, pattern = trim raw).
  { unfold Index.allIgnorePatterns in I. apply in_app_or in I as [I|I].
    - unfold Index.ignorePatterns in I. apply filter_In in I as [I B].
      apply in_map_iff in I as (raw & <- & _). split; [|now exists raw].
      intros E. rewrite E in B. discriminate.
    - unfold Index.gitignorePatterns in I.
      destruct (gitignore h) as [text|]; [|contradiction].
      unfold Index.readPatterns in I. apply filter_In in I as [I B].
      apply in_map_iff in I as (raw & <- & _). split; [|now exists raw].
      intros E. rewrite E in B. discriminate. }
  destruct T as (NE & raw & ->).
  split; [exact NE|]. split; [apply trim_idem|]. split; [|split; [|split]].
  - intros c rest E. eapply trim_head, E.
  - intros rest c E. eapply trim_last, E.
  - unfold Index.ignorePatterns. intros J C.
    apply filter_In in J as [J _]. apply in_map_iff in J as (raw' & E & S).
    rewrite <- E in C. apply trim_incl in C.
    now apply (split_no_sep _ _ _ S).
  - unfold Index.gitignorePatterns, Index.readPatterns.
    destruct (gitignore h) as [text|]; [|contradiction]. intros J.
    apply filter_In in J as [J B]. apply andb_true_iff in B as [_ B].
    apply negb_true_iff in B. split; [|exact B].
    intros C. apply in_map_iff in J as (raw' & E & S).
    rewrite <- E in C. apply trim_incl in C.
    now apply (split_no_sep _ _ _ S).
Qed.

Lemma rules_are_trimmed_sample :
  js "b.log" <> [] /\ trim (js "b.log") = js "b.log".
Proof.
  refine (let H := rules_are_trimmed sample (js "b.log") _ in
          conj (proj1 H) (proj1 (proj2 H))).
  left. reflexivity.
Defined.

Example gitignore_comment_dropped_caller_hash_kept :
  Index.allIgnorePatterns
    (with_services (Some (js "/work")) (Resolved (js "main"))
       (Resolved (js "ok"))
       (sample_host (js "schedule") (js " #keep , dist/ ,, ")
          (js "Review") (js "") false))
  = [js "#keep"; js "dist/"].
Proof. reflexivity. Qed.

(* ===================================================================== *)
(** ** The second entry point, lines 7 to 37 *)
(* ===================================================================== *)

(** X12. A run of the second entry point whose debug input is not one of
    the six spellings of a boolean stops at line 16: after the start line it
    signals one failure, with the toolkit's message, and does not invoke the
    agent. Every other run invokes the agent exactly once, with the trimmed
    inputs and the session id of line 19; when the agent answers, the run
    prints the answer under the heading "## Bedrock Agent Response" and
    signals no failure; when the invocation is rejected, it prints nothing
    and signals one failure that carries the message. *)
Theorem forwarded_outcomes :
  forall h : Host,
    match parseBoolean (input_debug h) with
    | None =>
        Part000.main h
        = [core_info (stamped h (Line 9) (js "Starting GitHub Action"));
           core_setFailed
             (stamped h (Line 35) (js "Error: " ++ notBoolean (js "debug")))]
    | Some _ =>
        filter is_agent_call (Part000.main h)
        = [agent_invokeAgent (trim (input_agent_id h))
             (trim (input_agent_alias_id h))
             (js "session-" ++ Number_toString (Date_now h))
             (trim (input_action_prompt h)) (Part000.memoryId h)]
        /\ match invokeAgent h (Part000.agentId h) (Part000.agentAliasId h)
                   (Part000.sessionId h) (Part000.actionPrompt h)
                   (Part000.memoryId h) with
           | Resolved agentResponse =>
               filter is_report (Part000.main h)
               = [console_info (js "## Bedrock Agent Response" ++ nl ++ nl
                                ++ agentResponse)]
               /\ filter is_failure (Part000.main h) = []
           | Rejected message =>
               filter is_report (Part000.main h) = []
               /\ filter is_failure (Part000.main h)
                  = [core_setFailed
                       (stamped h (Line 35) (js "Error: " ++ message))]
           end
    end.
Proof.
  intros h. destruct (parseBoolean (input_debug h)) as [b|] eqn:B.
  - rewrite forwarded_run by congruence.
    destruct (invokeAgent h (Part000.agentId h) (Part000.agentAliasId h)
                (Part000.sessionId h) (Part000.actionPrompt h)
                (Part000.memoryId h));
      destruct (Part000.debug h); repeat split.
  - apply forwarded_not_boolean, B.
Qed.

Example forwarded_without_debug_input :
  Part000.main sample_without_debug
  = [core_info (js "[2024-05-17T12:00:30.250Z] Starting GitHub Action");
     core_setFailed
       (js "[2024-05-17T12:00:30.250Z] Error: Input does not meet YAML 1.2 "
        ++ dquote ++ js "Core Schema" ++ dquote ++ js " specification: debug"
        ++ nl
        ++ js "Support boolean input list: `true | True | TRUE | false | False | FALSE`")].
Proof. vm_compute. reflexivity. Qed.

(* ===================================================================== *)
(** ** Session ids are told apart, lines 45 to 46, 72 to 73 and line 19 *)
(* ===================================================================== *)

Lemma uint_units_inj (d d' : Decimal.uint) :
  uint_units d = uint_units d' -> d = d'.
Proof.
  revert d'; induction d; intros [] E; cbn [uint_units] in E;
    try discriminate; try reflexivity; injection E as E; f_equal; auto.
Qed.

Lemma uint_units_digit (d : Decimal.uint) c rest :
  uint_units d = c :: rest -> isDigit c = true.
Proof.
  destruct d; cbn [uint_units]; intros E; try discriminate;
    injection E as <- _; reflexivity.
Qed.

(** Two integers that print alike are equal. *)
Lemma Number_toString_inj (n m : Z) :
  Number_toString n = Number_toString m -> n = m.
Proof.
  assert (Z : forall p, uint_units (Pos.to_uint p) <> [48%N]).
  { intros p E. apply (DecimalPos.Unsigned.to_uint_nonzero p).
    apply uint_units_inj. exact E. }
  assert (M : forall p q,
            uint_units (Pos.to_uint p) <> 45%N :: uint_units (Pos.to_uint q)).
  { intros p q E. apply uint_units_digit in E. discriminate. }
  destruct n as [|p|p], m as [|q|q]; cbn [Number_toString]; intros E;
    try reflexivity.
  - symmetry in E. now apply Z in E.
  - discriminate.
  - now apply Z in E.
  - apply uint_units_inj, DecimalPos.Unsigned.to_uint_inj in E. now subst.
  - now apply M in E.
  - discriminate.
  - symmetry in E. now apply M in E.
  - injection E as E.
    apply uint_units_inj, DecimalPos.Unsigned.to_uint_inj in E. now subst.
Qed.

(** Two numbers that print alike are equal, NaN included. *)
Lemma numberText_inj (n m : option Z) : numberText n = numberText m -> n = m.
Proof.
  assert (K : forall z, Number_toString z <> js "NaN").
  { intros [|p|p] E; cbn [Number_toString] in E; try discriminate.
    apply uint_units_digit in E. discriminate. }
  destruct n as [n|], m as [m|]; cbn [numberText]; intros E.
  - f_equal. now apply Number_toString_inj.
  - now apply K in E.
  - symmetry in E. now apply K in E.
  - reflexivity.
Qed.

(** X13. Session ids keep runs apart: two workflow_dispatch runs with the
    same session id have the same run id, two runs of the second entry point
    with the same session id read the same millisecond, a dispatch run and a
    scheduled run never share a session id, and neither shares one with a
    run of the second entry point. *)
Theorem session_ids_tell_runs_apart :
  (forall h1 h2 t1 t2 sessionId files1 files2,
     context_eventName h1 = js "workflow_dispatch" ->
     context_eventName h2 = js "workflow_dispatch" ->
     Index.trigger h1 = (t1, Normal (sessionId, files1)) ->
     Index.trigger h2 = (t2, Normal (sessionId, files2)) ->
     context_runId h1 = context_runId h2)
  /\ (forall h1 h2,
        Part000.sessionId h1 = Part000.sessionId h2 ->
        Date_now h1 = Date_now h2)
  /\ (forall h1 h2 t1 t2 sessionId1 sessionId2 files1 files2,
        context_eventName h1 = js "workflow_dispatch" ->
        context_eventName h2 = js "schedule" ->
        Index.trigger h1 = (t1, Normal (sessionId1, files1)) ->
        Index.trigger h2 = (t2, Normal (sessionId2, files2)) ->
        sessionId1 <> sessionId2)
  /\ (forall h1 h2 t1 sessionId1 files1,
        Index.trigger h1 = (t1, Normal (sessionId1, files1)) ->
        sessionId1 <> Part000.sessionId h2).
Proof.
  split; [|split; [|split]].
  - intros h1 h2 t1 t2 sid f1 f2 E1 E2 T1 T2.
    destruct (trigger_normal _ _ _ _ T1) as (_ & _ & [[_ S1]|[D _]]);
      [|rewrite E1 in D; discriminate].
    destruct (trigger_normal _ _ _ _ T2) as (_ & _ & [[_ S2]|[D _]]);
      [|rewrite E2 in D; discriminate].
    rewrite S1 in S2. apply app_inv_head in S2.
    now apply numberText_inj.
  - intros h1 h2 E. unfold Part000.sessionId in E.
    apply app_inv_head in E. now apply Number_toString_inj.
  - intros h1 h2 t1 t2 s1 s2 f1 f2 E1 E2 T1 T2.
    destruct (trigger_normal _ _ _ _ T1) as (_ & _ & [[_ ->]|[D _]]);
      [|rewrite E1 in D; discriminate].
    destruct (trigger_normal _ _ _ _ T2) as (_ & _ & [[D _]|[_ ->]]);
      [rewrite E2 in D; discriminate|].
    discriminate.
  - intros h1 h2 t1 s1 f1 T1. unfold Part000.sessionId.
    destruct (trigger_normal _ _ _ _ T1) as (_ & _ & [[_ ->]|[_ ->]]);
      discriminate.
Qed.

Lemma session_ids_tell_runs_apart_sample :
  js "workflow-42" <> Part000.sessionId sample.
Proof.
  apply (proj2 (proj2 (proj2 session_ids_tell_runs_apart)) sample sample
           (fst (Index.trigger sample)) (js "workflow-42") [a_txt; b_log]).
  vm_compute. reflexivity.
Defined.

(* ===================================================================== *)
(** ** The repository name, line 39 *)
(* ===================================================================== *)

Lemma split_without_sep (sep : N) (s : jsstring) :
  ~ In sep s -> split sep s = [s].
Proof.
  induction s as [|c s IH]; intros K; [reflexivity|]. cbn [split].
  destruct (N.eqb_spec c sep) as [->|D]; [destruct K; now left|].
  rewrite IH; [reflexivity|]. intros I. apply K. now right.
Qed.

Lemma split_at_sep (sep : N) (a b : jsstring) :
  ~ In sep a -> split sep (a ++ sep :: b) = a :: split sep b.
Proof.
  induction a as [|c a IH]; intros K; cbn [app split].
  - now rewrite N.eqb_refl.
  - destruct (N.eqb_spec c sep) as [->|D]; [destruct K; now left|].
    rewrite IH; [reflexivity|]. intros I. apply K. now right.
Qed.

(** X14. Line 39 reads the owner and the repository off GITHUB_REPOSITORY
    at its slashes: "owner/name" gives the two parts back, whatever follows
    a second slash is dropped, and a value without a slash gives the whole
    value as owner and no repository, which the log then prints as
    undefined. *)
Theorem owner_and_repo :
  forall (h : Host) (owner name : jsstring),
    ~ In 47%N owner ->
    (forall more,
       ~ In 47%N name ->
       (GITHUB_REPOSITORY h = Some (owner ++ js "/" ++ name)
        \/ GITHUB_REPOSITORY h
           = Some (owner ++ js "/" ++ name ++ js "/" ++ more)) ->
       Index.owner h = Some owner /\ Index.repo h = Some name)
    /\ (GITHUB_REPOSITORY h = Some owner ->
        Index.owner h = Some owner /\ Index.repo h = None
        /\ template (Index.repo h) = js "undefined").
Proof.
  intros h owner name O. split.
  - intros more N G. unfold Index.owner, Index.repo, Index.githubRepository.
    destruct G as [->| ->]; change (js "/") with [47%N]; cbn [app].
    + rewrite (split_at_sep _ _ _ O), (split_without_sep _ _ N). auto.
    + rewrite (split_at_sep _ _ _ O), (split_at_sep _ _ _ N). auto.
  - intros G. unfold Index.owner, Index.repo, Index.githubRepository.
    rewrite G, (split_without_sep _ _ O). auto.
Qed.

Lemma owner_and_repo_sample :
  Index.owner sample = Some (js "octo") /\ Index.repo sample = Some (js "repo").
Proof.
  refine (proj1 (owner_and_repo sample (js "octo") (js "repo") _) [] _ _).
  - vm_compute. intuition discriminate.
  - vm_compute. intuition discriminate.
  - left. reflexivity.
Defined.

(* ===================================================================== *)
(** ** Configuration failures, lines 9, 17 to 21, 34 and 97 to 100 *)
(* ===================================================================== *)

(** X15. The configuration failures of index.js, in the order the script
    meets them. A missing or empty GITHUB_TOKEN makes github.getOctokit
    throw while the module loads: the script ends in that error before main
    runs, so main logs nothing and signals nothing. With the token set the
    script is main, and main signals one failure right after its start line
    and returns: for a missing or empty GITHUB_REPOSITORY, with the message
    that names both variables; for a debug input that is no boolean, with
    the toolkit's TypeError behind the timestamp; for an event other than
    workflow_dispatch and schedule, with the message that names the event.
    None of these runs invokes the agent. *)
Theorem configuration_failures :
  forall h : Host,
    (missing (GITHUB_TOKEN h) = true -> Index.script h = Crashed noToken)
    /\ (missing (GITHUB_TOKEN h) = false -> Index.script h = Ran (Index.main h))
    /\ (missing (GITHUB_TOKEN h) = false ->
        missing (GITHUB_REPOSITORY h) = true ->
        Index.main h
        = [core_info (stamped h (Line 14) (js "Starting GitHub Action"));
           core_setFailed
             (js "Error: Missing required environment variables: GITHUB_TOKEN, GITHUB_REPOSITORY.")])
    /\ (missing (GITHUB_TOKEN h) = false ->
        missing (GITHUB_REPOSITORY h) = false ->
        parseBoolean (input_debug h) = None ->
        Index.main h
        = [core_info (stamped h (Line 14) (js "Starting GitHub Action"));
           core_setFailed
             (stamped h (Line 161)
                (js "Error: " ++ notBoolean (js "debug")))])
    /\ (missing (GITHUB_TOKEN h) = false ->
        missing (GITHUB_REPOSITORY h) = false ->
        parseBoolean (input_debug h) <> None ->
        context_eventName h <> js "workflow_dispatch" ->
        context_eventName h <> js "schedule" ->
        Index.main h
        = [core_info (stamped h (Line 14) (js "Starting GitHub Action"));
           core_setFailed
             (js "Unsupported event type: " ++ context_eventName h
              ++ js ". This action only supports workflow_dispatch and schedule events.")]).
Proof.
  intros h. unfold Index.script. split; [|split; [|split; [|split]]].
  - now intros ->.
  - now intros ->.
  - intros T R. apply main_returned, prelude_missing. now rewrite T, R.
  - intros T R B.
    rewrite (main_thrown h
               [core_info (stamped h (Line 14) (js "Starting GitHub Action"))]
               (notBoolean (js "debug"))); [reflexivity|].
    apply prelude_not_boolean; [now rewrite T, R | exact B].
  - intros T R B D S. apply main_returned, prelude_unsupported; auto.
    now rewrite T, R.
Qed.

Lemma configuration_failures_sample :
  Index.main sample_without_debug
  = [core_info (stamped sample_without_debug (Line 14)
                  (js "Starting GitHub Action"));
     core_setFailed
       (stamped sample_without_debug (Line 161)
          (js "Error: " ++ notBoolean (js "debug")))].
Proof.
  apply (proj1 (proj2 (proj2 (proj2
           (configuration_failures sample_without_debug))))).
  - reflexivity.
  - reflexivity.
  - reflexivity.
Defined.
